(** * Gcloud function plugin and function discovery of gloo

    A shallow embedding of the gcloud translation plugin
    ([plugin.Init], [plugin.ProcessUpstream], [plugin.ProcessRoute],
    [plugin.HttpFilters]) and of the gcloud function discovery
    ([DetectFunctionsOnce], [convertGfuncsToFunctionSpec],
    [DetectFunctions]), followed by the properties the specification
    states about them.

    Go values are modelled as follows.
    - A Go [string] is a sequence of bytes: Rocq's [string] (a list of
      8-bit [ascii]).
    - A Go [error] is a value of [error] below; the nil error is [None].
    - A pointer or interface that the source itself tests against nil is
      an [option]; dereferencing [None] panics, which is an [outcome].
    - [map[core.ResourceRef]*gcloud.UpstreamSpec] is a [gmap]; the nil
      map of a plugin that was never initialised is [None]. *)

From Stdlib Require Import String Ascii NArith List Bool Permutation Sorted Lia.
From stdpp Require Import base option list strings gmap.
From stdpp Require Import pretty.

Local Open Scope string_scope.
Set Warnings "-register-all".

(** ** Go runtime: panics *)

Inductive outcome (A : Type) : Type :=
| Returns (a : A)
| Panics (msg : string).
Arguments Returns {A} a.
Arguments Panics {A} msg.

Definition nil_dereference : string :=
  "invalid memory address or nil pointer dereference".
Definition nil_map_assignment : string :=
  "assignment to entry in nil map".

(** ** Resource references *)

Record ResourceRef : Type := mkRef {
  ref_Name : string;
  ref_Namespace : string
}.

#[global] Instance ResourceRef_eq_dec : EqDecision ResourceRef.
Proof. solve_decision. Defined.

#[global] Instance ResourceRef_countable : Countable ResourceRef.
Proof.
  refine (inj_countable' (fun r => (ref_Namespace r, ref_Name r))
                         (fun q => mkRef (snd q) (fst q)) _).
  intros []; reflexivity.
Defined.

Record Metadata : Type := mkMetadata {
  Name : string;
  Namespace : string
}.

(** [core.Metadata.Ref] *)
Definition Ref (m : Metadata) : ResourceRef :=
  {| ref_Name := Name m; ref_Namespace := Namespace m |}.

(** [core.ResourceRef.Strings]: namespace first, then name. *)
Definition Strings (r : ResourceRef) : string * string :=
  (ref_Namespace r, ref_Name r).

(** ** Errors *)

(** An argument of a format string. *)
Inductive fmt_arg : Type :=
| ArgString (s : string)
| ArgRef (r : ResourceRef).

(** The two values [ctx.Err()] takes once a context is done. *)
Inductive ctx_error : Type :=
| Canceled
| DeadlineExceeded.

Inductive error : Type :=
| Errorf (format : string) (args : list fmt_arg)
    (* errors.Errorf, errors.New *)
| Wrapf (cause : error) (format : string) (args : list fmt_arg)
    (* errors.Wrapf, errors.Wrap *)
| MultiError (errs : list error)
    (* *multierror.Error *)
| NotFound (namespace name : string)
    (* a lookup in a resource list that found nothing *)
| ContextError (c : ctx_error)
    (* ctx.Err() *)
| ExternalError (msg : string).
    (* a failure reported by an external client library *)

Module multierror.

(** [multierror.Append(err, e)]: [err] becomes (or stays) a multierror and
    [e] is added to its list, flattened when it is a multierror itself. *)
Definition flatten (e : error) : list error :=
  match e with
  | MultiError es => es
  | _ => [e]
  end.

Definition Append (err : option error) (e : error) : error :=
  match err with
  | None => MultiError (flatten e)
  | Some (MultiError es) => MultiError (es ++ flatten e)
  | Some other => MultiError (other :: flatten e)
  end.

End multierror.

(** ** [unicode/utf8] *)

Module utf8.

Definition RuneSelf : N := 0x80.
Definition locb : N := 0x80.
Definition hicb : N := 0xBF.

(** The table [first] together with [acceptRanges]: for a leading byte,
    the size of the encoding and the range accepted for the second byte;
    [None] is the entry [xx] (illegal leading byte). *)
Definition first (b : N) : option (nat * N * N) :=
  if (b <? 0xC2)%N then None
  else if (b <=? 0xDF)%N then Some (2%nat, locb, hicb)
  else if (b =? 0xE0)%N then Some (3%nat, 0xA0%N, hicb)
  else if (b <=? 0xEC)%N then Some (3%nat, locb, hicb)
  else if (b =? 0xED)%N then Some (3%nat, locb, 0x9F%N)
  else if (b <=? 0xEF)%N then Some (3%nat, locb, hicb)
  else if (b =? 0xF0)%N then Some (4%nat, 0x90%N, hicb)
  else if (b <=? 0xF3)%N then Some (4%nat, locb, hicb)
  else if (b =? 0xF4)%N then Some (4%nat, locb, 0x8F%N)
  else None.

Definition within (lo hi c : N) : bool := ((lo <=? c) && (c <=? hi))%N.

Fixpoint ValidBytes (p : list N) : bool :=
  match p with
  | [] => true
  | pi :: rest =>
    if (pi <? RuneSelf)%N then ValidBytes rest
    else
      match first pi with
      | None => false
      | Some (size, lo, hi) =>
        match size, rest with
        | 2%nat, c1 :: r => within lo hi c1 && ValidBytes r
        | 3%nat, c1 :: c2 :: r =>
            within lo hi c1 && within locb hicb c2 && ValidBytes r
        | 4%nat, c1 :: c2 :: c3 :: r =>
            within lo hi c1 && within locb hicb c2 && within locb hicb c3
            && ValidBytes r
        | _, _ => false
        end
      end
  end.

Definition bytes (s : string) : list N :=
  map N_of_ascii (list_ascii_of_string s).

(** [utf8.Valid([]byte(s))] *)
Definition Valid (s : string) : bool := ValidBytes (bytes s).

End utf8.

(** ** API types ([v1], [gcloud], [kubernetes]) *)

Record GfuncFunctionSpec : Type := mkGfuncFunctionSpec {
  LogicalName : string;
  GfuncFunctionName : string;
  Url : string
}.

Record gcloud_UpstreamSpec : Type := mkGcloudUpstreamSpec {
  Region : string;
  ProjectId : string;
  SecretRef : ResourceRef;
  GfuncFunctions : list GfuncFunctionSpec
}.

Record kubernetes_UpstreamSpec : Type := mkKubeUpstreamSpec {
  ServiceName : string;
  ServiceNamespace : string;
  ServicePort : N
}.

(** The closed union [isUpstreamSpec_UpstreamType]. The sources name the
    kubernetes and the gcloud variant; [UpstreamSpec_Other] stands for the
    variants of the remaining providers. *)
Inductive UpstreamType : Type :=
| UpstreamSpec_Kube (Kube : kubernetes_UpstreamSpec)
| UpstreamSpec_Gcloud (Gcloud : gcloud_UpstreamSpec)
| UpstreamSpec_Other (provider : string).

Record UpstreamSpec : Type := mkUpstreamSpec {
  UpstreamType_of : option UpstreamType
}.

Record Upstream : Type := mkUpstream {
  up_Metadata : Metadata;
  up_UpstreamSpec : option UpstreamSpec
}.

Record GcloudSecret : Type := mkGcloudSecret {
  AccessKey : string;
  JsonKey : string
}.

Inductive SecretKind : Type :=
| Secret_Gcloud (Gcloud : GcloudSecret)
| Secret_Other (provider : string).

Record Secret : Type := mkSecret {
  sec_Metadata : Metadata;
  Kind : option SecretKind
}.

Record gcloud_DestinationSpec : Type := mkGcloudDestinationSpec {
  dest_LogicalName : string;
  ResponseTransformation : bool
}.

Inductive DestinationType : Type :=
| DestinationSpec_Gcloud (Gcloud : gcloud_DestinationSpec)
| DestinationSpec_Other (provider : string).

Record DestinationSpec : Type := mkDestinationSpec {
  DestinationType_of : option DestinationType
}.

(** [GetUpstream] is nil when the destination is not an upstream
    reference. *)
Record Destination : Type := mkDestination {
  GetUpstream : option ResourceRef;
  dest_DestinationSpec : option DestinationSpec
}.

Record Route : Type := mkRoute {
  Matcher : string;
  route_Destination : Destination
}.

Record ApiSnapshot : Type := mkSnapshot {
  Upstreams : list Upstream;
  Secrets : list Secret
}.

Record Params : Type := mkParams {
  Snapshot : ApiSnapshot
}.

Definition Context : Type := nat.

Record InitParams : Type := mkInitParams {
  Ctx : Context
}.

Record HttpListener : Type := mkHttpListener {
  listener_Routes : list Route
}.

(** Modelled from the spec: [SecretList.Find] is generated code that is
    not part of these sources. The secret resolver looks a Secret up by
    its Ref (namespace, name) and reports NotFound when it is absent. *)
Fixpoint Find (list : list Secret) (namespace name : string)
  : Secret + error :=
  match list with
  | [] => inr (NotFound namespace name)
  | secret :: rest =>
    if decide (Ref (sec_Metadata secret) = mkRef name namespace)
    then inl secret
    else Find rest namespace name
  end.

(** ** Wire objects (envoy) and the plugin framework *)

Inductive Cluster_DiscoveryType : Type :=
| Cluster_STATIC
| Cluster_STRICT_DNS
| Cluster_LOGICAL_DNS
| Cluster_EDS
| Cluster_ORIGINAL_DST.

Inductive Cluster_DnsLookupFamily : Type :=
| Cluster_AUTO
| Cluster_V4_ONLY
| Cluster_V6_ONLY.

Record UpstreamTlsContext : Type := mkUpstreamTlsContext {
  Sni : string
}.

Record GfuncProtocolExtension : Type := mkGfuncProtocolExtension {
  pe_Host : string;
  pe_Region : string;
  pe_AccessKey : string;
  pe_JsonKey : string
}.

Record Cluster : Type := mkCluster {
  ClusterDiscoveryType : option Cluster_DiscoveryType;
  DnsLookupFamily : Cluster_DnsLookupFamily;
  LoadAssignment : option (string * N);
  TlsContext : option UpstreamTlsContext;
  ExtensionProtocolOptions : gmap string GfuncProtocolExtension
}.

Record GfuncPerRoute : Type := mkGfuncPerRoute {
  pr_Name : string;
  pr_Url : string
}.

Record TransformationTemplate : Type := mkTransformationTemplate {
  Body : string;
  Headers : gmap string string
}.

(** The per-filter configurations this plugin attaches to a route. *)
Inductive Message : Type :=
| Msg_GfuncPerRoute (m : GfuncPerRoute)
| Msg_RouteTransformations (ResponseTransformation : TransformationTemplate).

Record envoy_Route : Type := mkEnvoyRoute {
  PerFilterConfig : gmap string Message
}.

(** [plugins.FilterStage]; the plugin uses [OutAuth]. *)
Inductive FilterStage : Type :=
| FaultFilter
| PreInAuth
| InAuth
| PostInAuth
| PreOutAuth
| OutAuth.

Record StagedHttpFilter : Type := mkStagedHttpFilter {
  HttpFilter_Name : string;
  Stage : FilterStage
}.

Definition NewStagedFilter (name : string) (stage : FilterStage)
  : StagedHttpFilter :=
  {| HttpFilter_Name := name; Stage := stage |}.

Module pluginutils.

(** [EnvoySingleEndpointLoadAssignment(out, address, port)] *)
Definition EnvoySingleEndpointLoadAssignment (out : Cluster)
    (address : string) (port : N) : Cluster :=
  {| ClusterDiscoveryType := ClusterDiscoveryType out;
     DnsLookupFamily := DnsLookupFamily out;
     LoadAssignment := Some (address, port);
     TlsContext := TlsContext out;
     ExtensionProtocolOptions := ExtensionProtocolOptions out |}.

(** Modelled from the spec: [SetExtenstionProtocolOptions] is not part of
    these sources; it stores the protocol-extension options of a filter
    in the cluster under the filter's name. *)
Definition SetExtenstionProtocolOptions (out : Cluster) (filterName : string)
    (protoext : GfuncProtocolExtension) : Cluster * option error :=
  ({| ClusterDiscoveryType := ClusterDiscoveryType out;
      DnsLookupFamily := DnsLookupFamily out;
      LoadAssignment := LoadAssignment out;
      TlsContext := TlsContext out;
      ExtensionProtocolOptions :=
        <[filterName := protoext]> (ExtensionProtocolOptions out) |},
   None).

(** The callback of [MarkPerFilterConfig]: it may update the state [S] of
    its closure and returns a configuration (or nil) and an error. *)
Definition PerFilterConfigFunc (S : Type) : Type :=
  Destination -> S -> S * (option Message * option error).

(** Modelled from the spec: [MarkPerFilterConfig] is not part of these
    sources. A Route carries one Destination; the callback is run on it,
    its error fails the route, a nil configuration is a no-op, and any
    other configuration is attached to the wire route under the filter's
    name. *)
Definition MarkPerFilterConfig {S : Type} (in_ : Route) (out : envoy_Route)
    (filterName : string) (perFilterConfig : PerFilterConfigFunc S) (s : S)
  : S * envoy_Route * option error :=
  let '(s', (config, err)) := perFilterConfig (route_Destination in_) s in
  match err with
  | Some e => (s', out, Some e)
  | None =>
    match config with
    | None => (s', out, None)
    | Some msg =>
      (s', {| PerFilterConfig := <[filterName := msg]> (PerFilterConfig out) |},
       None)
    end
  end.

End pluginutils.

(** [transformation.FilterName], declared by the transformation plugin. *)
Definition transformation_FilterName : string := "io.solo.transformation".

(** ** The plugin *)

Module Plugin.

Definition filterName : string := "io.solo.gcloud_gfunc".
Definition pluginStage : FilterStage := OutAuth.

Definition accessKey : string := "access_key".
Definition jsonKey : string := "json_key".

Definition getGfuncHostname (s : gcloud_UpstreamSpec) : string :=
  Region s +:+ "-" +:+ ProjectId s +:+ ".cloudfunctions.net".

(** [transformsAdded] is the flag the pointer handed to [NewPlugin] points
    to. *)
Record plugin : Type := mkPlugin {
  recordedUpstreams : option (gmap ResourceRef gcloud_UpstreamSpec);
  ctx : option Context;
  transformsAdded : bool
}.

Definition NewPlugin (transformsAdded : bool) : plugin :=
  {| recordedUpstreams := None; ctx := None;
     transformsAdded := transformsAdded |}.

Definition Init (p : plugin) (params : InitParams) : plugin * option error :=
  ({| recordedUpstreams := Some ∅;
      ctx := Some (Ctx params);
      transformsAdded := transformsAdded p |},
   None).

(** [p.recordedUpstreams[ref]]: reading a nil map finds nothing. *)
Definition recorded (p : plugin) (ref : ResourceRef)
  : option gcloud_UpstreamSpec :=
  match recordedUpstreams p with
  | None => None
  | Some m => m !! ref
  end.

(** [len(p.recordedUpstreams)] *)
Definition len_recordedUpstreams (p : plugin) : nat :=
  match recordedUpstreams p with
  | None => 0
  | Some m => size m
  end.

(** The validation of the two fields of the secret, lines 187-200. *)
Definition secretErrs (accessKey jsonKey : string) : option error :=
  let secretErrs : option error := None in
  let secretErrs :=
    if String.eqb accessKey "" || negb (utf8.Valid accessKey)
    then Some (multierror.Append secretErrs
                 (Errorf "access_key is not a valid string" []))
    else secretErrs in
  let secretErrs :=
    if String.eqb jsonKey "" || negb (utf8.Valid jsonKey)
    then Some (multierror.Append secretErrs
                 (Errorf "json_key is not a valid string" []))
    else secretErrs in
  secretErrs.

Definition ProcessUpstream (p : plugin) (params : Params) (in_ : Upstream)
    (out : Cluster) : outcome (plugin * Cluster * option error) :=
  match up_UpstreamSpec in_ with
  | None => Panics nil_dereference
  | Some spec =>
    match UpstreamType_of spec with
    | Some (UpstreamSpec_Gcloud upstreamSpec) =>
      (* even if it failed, route should still be valid *)
      match recordedUpstreams p with
      | None => Panics nil_map_assignment
      | Some m =>
        let p :=
          {| recordedUpstreams :=
               Some (<[Ref (up_Metadata in_) := upstreamSpec]> m);
             ctx := ctx p;
             transformsAdded := transformsAdded p |} in
        let gfuncHostname := getGfuncHostname upstreamSpec in
        let out :=
          {| ClusterDiscoveryType := Some Cluster_LOGICAL_DNS;
             DnsLookupFamily := Cluster_V4_ONLY;
             LoadAssignment := LoadAssignment out;
             TlsContext := TlsContext out;
             ExtensionProtocolOptions := ExtensionProtocolOptions out |} in
        let out :=
          pluginutils.EnvoySingleEndpointLoadAssignment out gfuncHostname 443 in
        let out :=
          {| ClusterDiscoveryType := ClusterDiscoveryType out;
             DnsLookupFamily := DnsLookupFamily out;
             LoadAssignment := LoadAssignment out;
             TlsContext := Some {| Sni := gfuncHostname |};
             ExtensionProtocolOptions := ExtensionProtocolOptions out |} in
        let '(namespace, name) := Strings (SecretRef upstreamSpec) in
        match Find (Secrets (Snapshot params)) namespace name with
        | inr err =>
          Returns (p, out, Some (Wrapf err "retrieving gcloud secret" []))
        | inl secrets =>
          match Kind secrets with
          | Some (Secret_Gcloud gcloudSecrets) =>
            let accessKey := AccessKey gcloudSecrets in
            let jsonKey := JsonKey gcloudSecrets in
            match secretErrs accessKey jsonKey with
            | Some errs => Returns (p, out, Some errs)
            | None =>
              let lpe :=
                {| pe_Host := gfuncHostname;
                   pe_Region := Region upstreamSpec;
                   pe_AccessKey := accessKey;
                   pe_JsonKey := jsonKey |} in
              match pluginutils.SetExtenstionProtocolOptions out filterName lpe
              with
              | (out, Some err) =>
                Returns (p, out,
                         Some (Wrapf err
                           "converting gcloud protocol options to struct" []))
              | (out, None) => Returns (p, out, None)
              end
            end
          | _ =>
            Returns (p, out,
                     Some (Errorf "secret %v is not an GCLOUD secret"
                             [ArgRef (Ref (sec_Metadata secrets))]))
          end
        end
      end
    | _ =>
      (* not ours *)
      Returns (p, out, None)
    end
  end.

(** The loop of lines 238-249 over [gfuncSpec.GfuncFunctions]. *)
Fixpoint getFunction (logicalName : string)
    (GfuncFunctions : list GfuncFunctionSpec)
  : option Message * option error :=
  match GfuncFunctions with
  | [] => (None, Some (Errorf "unknown function %v" [ArgString logicalName]))
  | gfuncFunc :: rest =>
    if String.eqb (LogicalName gfuncFunc) logicalName
    then (Some (Msg_GfuncPerRoute
                  {| pr_Name := GfuncFunctionName gfuncFunc;
                     pr_Url := Url gfuncFunc |}),
          None)
    else getFunction logicalName rest
  end.

(** The first callback of [ProcessRoute], lines 218-250. *)
Definition gfuncPerFilterConfig : pluginutils.PerFilterConfigFunc plugin :=
  fun spec p =>
  match dest_DestinationSpec spec, GetUpstream spec with
  | Some destinationSpec, Some upstream =>
    match DestinationType_of destinationSpec with
    | Some (DestinationSpec_Gcloud gcloudDestinationSpec) =>
      match recorded p upstream with
      | None =>
        (p, (None,
             Some (Errorf "%v is not an GCLOUD upstream" [ArgRef upstream])))
      | Some gfuncSpec =>
        (p, getFunction (dest_LogicalName gcloudDestinationSpec)
                        (GfuncFunctions gfuncSpec))
      end
    | _ => (p, (None, None))
    end
  | _, _ => (p, (None, None))
  end.

Definition responseTemplate : TransformationTemplate :=
  {| Body := "{{body}}";
     Headers := {[ "content-type" := "text/html" ]} |}.

(** The second callback of [ProcessRoute], lines 255-288. *)
Definition transformPerFilterConfig : pluginutils.PerFilterConfigFunc plugin :=
  fun spec p =>
  match dest_DestinationSpec spec with
  | None => (p, (None, None))
  | Some destinationSpec =>
    match DestinationType_of destinationSpec with
    | Some (DestinationSpec_Gcloud gcloudDestinationSpec) =>
      if negb (ResponseTransformation gcloudDestinationSpec)
      then (p, (None, None))
      else
        ({| recordedUpstreams := recordedUpstreams p;
            ctx := ctx p;
            transformsAdded := true |},
         (Some (Msg_RouteTransformations responseTemplate), None))
    | _ => (p, (None, None))
    end
  end.

Definition ProcessRoute (p : plugin) (params : Params) (in_ : Route)
    (out : envoy_Route) : plugin * envoy_Route * option error :=
  match pluginutils.MarkPerFilterConfig in_ out filterName
          gfuncPerFilterConfig p with
  | (p, out, Some err) => (p, out, Some err)
  | (p, out, None) =>
    pluginutils.MarkPerFilterConfig in_ out transformation_FilterName
      transformPerFilterConfig p
  end.

Definition HttpFilters (p : plugin) (params : Params) (listener : HttpListener)
  : list StagedHttpFilter * option error :=
  if Nat.eqb (len_recordedUpstreams p) 0
  then ([], None)   (* no upstreams no filter *)
  else ([NewStagedFilter filterName pluginStage], None).

(** Two plugin states are alike when they recorded the same upstreams;
    their context and their transforms flag may differ. *)
Definition alike (p1 p2 : plugin) : Prop :=
  recordedUpstreams p1 = recordedUpstreams p2.

(** The secret a gcloud Backend needs: found under the Backend's secret
    reference, of the gcloud kind, both fields non-empty valid UTF-8. *)
Definition usable (params : Params) (g : gcloud_UpstreamSpec)
    (gs : GcloudSecret) : Prop :=
  (exists secret,
      Find (Secrets (Snapshot params))
           (ref_Namespace (SecretRef g)) (ref_Name (SecretRef g)) = inl secret
      /\ Kind secret = Some (Secret_Gcloud gs)) /\
  (AccessKey gs <> "" /\ utf8.Valid (AccessKey gs) = true) /\
  (JsonKey gs <> "" /\ utf8.Valid (JsonKey gs) = true).

(** The routing part of the cluster, lines 161-174. *)
Definition routed (g : gcloud_UpstreamSpec) (out : Cluster) : Cluster :=
  {| ClusterDiscoveryType := Some Cluster_LOGICAL_DNS;
     DnsLookupFamily := Cluster_V4_ONLY;
     LoadAssignment := Some (getGfuncHostname g, 443%N);
     TlsContext := Some {| Sni := getGfuncHostname g |};
     ExtensionProtocolOptions := ExtensionProtocolOptions out |}.

End Plugin.

(** ** [sort.Slice] *)

Module sort.

(** The inner loop of insertion sort: [x] sits right of the sorted prefix
    and is swapped leftwards while it is less than its left neighbour.
    The prefix is held reversed, its last element first. *)
Fixpoint sift {A : Type} (less : A -> A -> bool) (x : A)
    (prefix_rev : list A) : list A :=
  match prefix_rev with
  | [] => [x]
  | y :: rest =>
    if less x y then y :: sift less x rest else x :: prefix_rev
  end.

Definition insertionSort_rev {A : Type} (less : A -> A -> bool)
    (data : list A) : list A :=
  fold_left (fun prefix_rev x => sift less x prefix_rev) data [].

(** [sort.Slice(x, less)] with [less] read on the elements. The standard
    library sorts a short slice by insertion, which is the algorithm
    modelled here for every length; the order [sort.Slice] promises (a
    permutation sorted by [less]) is proved of it below. *)
Definition Slice {A : Type} (x : list A) (less : A -> A -> bool) : list A :=
  rev (insertionSort_rev less x).

(** [a] is not less than [b]. *)
Definition notLess {A : Type} (less : A -> A -> bool) (a b : A) : Prop :=
  less a b = false.

End sort.

(** ** Function discovery *)

Module Discovery.

Definition gcloudAccessKey : string := "access_key".
Definition gcloudJsonKey : string := "json_key".
Definition statusReady : string := "READY".
Definition statusActive : string := "ACTIVE".

(** [cloudfunctions.CloudFunction] and its HTTPS trigger. *)
Record HTTPSTrigger : Type := mkHTTPSTrigger {
  trigger_Url : string
}.

Record CloudFunction : Type := mkCloudFunction {
  cf_Name : string;
  cf_Status : string;
  HttpsTrigger : option HTTPSTrigger
}.

Record ListFunctionsResponse : Type := mkListFunctionsResponse {
  Functions : list CloudFunction
}.

(** The Google client libraries, as far as the discovery uses them:
    whether a JSON key yields a JWT configuration, whether the service can
    be created, and what listing the functions of a parent delivers (the
    pages received, then the error that ended the listing, if any). *)
Record GoogleAPI : Type := mkGoogleAPI {
  JWTConfigFromJSON : string -> option error;
  cloudfunctions_New : option error;
  Functions_List : string -> list ListFunctionsResponse * option error
}.

(** [listCall.Pages(ctx, f)]: [f] is run on every page in turn and stops
    the listing when it fails. *)
Fixpoint Pages {S : Type} (pages : list ListFunctionsResponse)
    (listErr : option error)
    (f : ListFunctionsResponse -> S -> S * option error) (s : S)
  : S * option error :=
  match pages with
  | [] => (s, listErr)
  | response :: rest =>
    match f response s with
    | (s, Some err) => (s, Some err)
    | (s, None) => Pages rest listErr f s
    end
  end.

Record GcloudGfuncFunctionDiscovery : Type := mkDiscovery {
  timetowait : N;
  upstream : Upstream
}.

Definition IsFunctional (f : GcloudGfuncFunctionDiscovery) : outcome bool :=
  match up_UpstreamSpec (upstream f) with
  | None => Panics nil_dereference
  | Some spec =>
    match UpstreamType_of spec with
    | Some (UpstreamSpec_Gcloud _) => Returns true
    | _ => Returns false
    end
  end.

(** The test of line 511. *)
Definition supported (result : CloudFunction) : bool :=
  (String.eqb (cf_Status result) statusReady
   || String.eqb (cf_Status result) statusActive)
  && match HttpsTrigger result with Some _ => true | None => false end.

(** The callback handed to [Pages], lines 508-515. *)
Definition collect (response : ListFunctionsResponse)
    (results : list CloudFunction) : list CloudFunction * option error :=
  (fold_left
     (fun (results : list CloudFunction) result =>
        if supported result then (results ++ [result])%list else results)
     (Functions response) results,
   None).

Fixpoint convertGfuncsToFunctionSpec (results : list CloudFunction)
  : outcome (list GfuncFunctionSpec) :=
  match results with
  | [] => Returns []
  | gFunc :: rest =>
    match HttpsTrigger gFunc with
    | None => Panics nil_dereference
    | Some trigger =>
      match convertGfuncsToFunctionSpec rest with
      | Panics msg => Panics msg
      | Returns newfunctions =>
        Returns ({| LogicalName := "";
                    GfuncFunctionName := cf_Name gFunc;
                    Url := trigger_Url trigger |} :: newfunctions)
      end
    end
  end.

Definition newGoogleClient (api : GoogleAPI) (jsonKey : string)
  : option error :=
  match JWTConfigFromJSON api jsonKey with
  | Some err =>
    Some (Wrapf err
            "creating jwt config from service account JSON key file " [])
  | None => None
  end.

Definition DetectFunctionsOnce (f : GcloudGfuncFunctionDiscovery)
    (api : GoogleAPI) (secrets : list Secret)
  : outcome (list GfuncFunctionSpec + error) :=
  let in_ := upstream f in
  match up_UpstreamSpec in_ with
  | None => Panics nil_dereference
  | Some spec =>
    match UpstreamType_of spec with
    | Some (UpstreamSpec_Gcloud gfuncSpec) =>
      match Find secrets (ref_Namespace (SecretRef gfuncSpec))
                         (ref_Name (SecretRef gfuncSpec)) with
      | inr err =>
        Returns (inr (Wrapf err "secrets not found for secret ref %v"
                              [ArgRef (SecretRef gfuncSpec)]))
      | inl gcloudSecrets =>
        match Kind gcloudSecrets with
        | Some (Secret_Gcloud gcloudSecret) =>
          let accessKey := AccessKey gcloudSecret in
          if negb (String.eqb accessKey "") && negb (utf8.Valid accessKey)
          then Returns (inr (Errorf "%s not a valid string"
                                    [ArgString gcloudAccessKey]))
          else
          let jsonKey := JsonKey gcloudSecret in
          if negb (String.eqb jsonKey "") && negb (utf8.Valid jsonKey)
          then Returns (inr (Errorf "%s not a valid string"
                                    [ArgString gcloudJsonKey]))
          else
          match newGoogleClient api jsonKey with
          | Some err =>
            Returns (inr (Wrapf err "creating google oauth2 client" []))
          | None =>
            match cloudfunctions_New api with
            | Some err => Returns (inr (Wrapf err "creating gcf client" []))
            | None =>
              let locationID := "-" in
              let parent :=
                "projects/" +:+ ProjectId gfuncSpec +:+ "/locations/"
                +:+ locationID in
              let '(pages, listErr) := Functions_List api parent in
              match Pages pages listErr collect [] with
              | (_, Some err) =>
                Returns (inr (Wrapf err
                                "unable to get list of GCF functions" []))
              | (results, None) =>
                match convertGfuncsToFunctionSpec results with
                | Panics msg => Panics msg
                | Returns newfunctions => Returns (inl newfunctions)
                end
              end
            end
          end
        | _ =>
          Returns (inr (Errorf "provided secret is not an gcloud secret" []))
        end
      end
    | _ => Returns (inr (Errorf "not a gfunc upstream spec" []))
    end
  end.

(** [newfunctions[i].LogicalName < newfunctions[j].LogicalName]: the
    order of Go strings, byte by byte. *)
Definition lessLogicalName (a b : GfuncFunctionSpec) : bool :=
  String.ltb (LogicalName a) (LogicalName b).

(** [fds.UpstreamMutator]: the upstream handed in may be nil and is
    changed in place. *)
Definition UpstreamMutator : Type :=
  option Upstream -> option Upstream * option error.

(** The mutator of lines 426-445. *)
Definition setFunctions (newfunctions : list GfuncFunctionSpec)
  : UpstreamMutator :=
  fun out =>
  match out with
  | None => (out, Some (Errorf "nil upstream" []))
  | Some u =>
    match up_UpstreamSpec u with
    | None => (out, Some (Errorf "nil upstream spec" []))
    | Some spec =>
      match UpstreamType_of spec with
      | None => (out, Some (Errorf "nil upstream type" []))
      | Some (UpstreamSpec_Gcloud gcloudspec) =>
        (Some {| up_Metadata := up_Metadata u;
                 up_UpstreamSpec :=
                   Some {| UpstreamType_of :=
                     Some (UpstreamSpec_Gcloud
                       {| Region := Region gcloudspec;
                          ProjectId := ProjectId gcloudspec;
                          SecretRef := SecretRef gcloudspec;
                          GfuncFunctions := newfunctions |}) |} |},
         None)
      | Some _ => (out, Some (Errorf "not gcloud upstream" []))
      end
    end
  end.

(** The callback [DetectFunctions] hands to [Backoff], lines 411-452: one
    discovery iteration. [updatecb] is the mutation callback of the
    caller, acting on a storage of type [St]; [dependencies] delivers the
    secrets when it is asked. *)
Definition detectAndUpdate {St : Type} (f : GcloudGfuncFunctionDiscovery)
    (api : GoogleAPI) (dependencies : list Secret)
    (updatecb : UpstreamMutator -> St -> St * option error) (st : St)
  : outcome (St * option error) :=
  match DetectFunctionsOnce f api dependencies with
  | Panics msg => Panics msg
  | Returns (inr err) => Returns (st, Some err)
  | Returns (inl newfunctions) =>
    (* sort for idempotency *)
    let newfunctions := sort.Slice newfunctions lessLogicalName in
    match updatecb (setFunctions newfunctions) st with
    | (st, Some err) =>
      Returns (st, Some (Wrapf err "unable to update upstream" []))
    | (st, None) => Returns (st, None)
    end
  end.

(** Modelled from the spec: the mutation callback is given by the caller
    of the discovery. This one is the storage holding one live Backend:
    it hands the live Backend to the mutator, keeps the storage as it was
    when the mutator fails, and stores the mutated Backend otherwise. *)
Definition storeUpdate (mutator : UpstreamMutator) (live : option Upstream)
  : option Upstream * option error :=
  match mutator live with
  | (_, Some err) => (live, Some err)
  | (out, None) => (out, None)
  end.

(** *** The loop of [DetectFunctions]

    [Backoff] and [Sleep] belong to an external library and the context
    is cancelled from outside, so what they deliver in the i-th pass of
    the loop is given by the run: the error [Backoff] returned, the value
    of [ctx.Err()] read at line 454, and the error [Sleep] returned. *)
Record iteration : Type := mkIteration {
  backoff_err : option error;
  ctx_Err : option ctx_error;
  sleep_err : option error
}.

Inductive control : Type :=
| Continue
| Return (err : error).

(** The body of the [for] loop, lines 411-463. *)
Definition loopBody (it : iteration) : control :=
  let sleep :=
    match sleep_err it with
    | Some err => Return err
    | None => Continue
    end in
  match backoff_err it with
  | Some _ =>
    match ctx_Err it with
    | Some c => Return (ContextError c)
    | None => sleep   (* ignore other errors *)
    end
  | None => sleep
  end.

(** [DetectFunctions] from pass [i] on, for at most [fuel] passes; [None]
    when the loop is still running after them. *)
Fixpoint DetectFunctions (run : nat -> iteration) (i fuel : nat)
  : option error :=
  match fuel with
  | O => None
  | S fuel =>
    match loopBody (run i) with
    | Return err => Some err
    | Continue => DetectFunctions run (S i) fuel
    end
  end.

(** *** The factory and the type detection *)

Record GcloudGfuncFunctionDiscoveryFactory : Type := mkFactory {
  PollingTime : N
}.

Definition NewFunctionDiscovery (f : GcloudGfuncFunctionDiscoveryFactory)
    (u : Upstream) : GcloudGfuncFunctionDiscovery :=
  {| timetowait := PollingTime f; upstream := u |}.

(** [DetectType] detects nothing: no service spec and no error. *)
Definition DetectType (f : GcloudGfuncFunctionDiscovery) (url : string)
  : option string * option error :=
  (None, None).

End Discovery.

(** ** A translation pass of the plugin

    The hooks the pipeline calls on the plugin between two [Init]s, and
    what each call hands back. A panic ends the pass. *)

Module Pass.

Import Plugin.

Inductive call : Type :=
| CallProcessUpstream (in_ : Upstream) (out : Cluster)
| CallProcessRoute (in_ : Route) (out : envoy_Route)
| CallHttpFilters (listener : HttpListener).

Inductive output : Type :=
| ClusterPatch (out : Cluster) (err : option error)
| RoutePatch (out : envoy_Route) (err : option error)
| StagedFilters (filters : list StagedHttpFilter) (err : option error)
| Panicked (msg : string).

Fixpoint runHooks (p : plugin) (params : Params) (calls : list call)
  : plugin * list output :=
  match calls with
  | [] => (p, [])
  | CallProcessUpstream in_ out :: rest =>
    match ProcessUpstream p params in_ out with
    | Panics msg => (p, [Panicked msg])
    | Returns (p, out, err) =>
      let '(p, outputs) := runHooks p params rest in
      (p, ClusterPatch out err :: outputs)
    end
  | CallProcessRoute in_ out :: rest =>
    let '(p, out, err) := ProcessRoute p params in_ out in
    let '(p, outputs) := runHooks p params rest in
    (p, RoutePatch out err :: outputs)
  | CallHttpFilters listener :: rest =>
    let '(filters, err) := HttpFilters p params listener in
    let '(p, outputs) := runHooks p params rest in
    (p, StagedFilters filters err :: outputs)
  end.

(** [Init], then the hooks. *)
Definition runPass (p : plugin) (init : InitParams) (params : Params)
    (calls : list call) : plugin * list output :=
  runHooks (fst (Init p init)) params calls.

(** Does the call hand a gcloud Backend to [ProcessUpstream]? *)
Definition processesGcloud (c : call) : bool :=
  match c with
  | CallProcessUpstream in_ _ =>
    match up_UpstreamSpec in_ with
    | Some spec =>
      match UpstreamType_of spec with
      | Some (UpstreamSpec_Gcloud _) => true
      | _ => false
      end
    | None => false
    end
  | _ => false
  end.

Definition returned (o : output) : bool :=
  match o with
  | Panicked _ => false
  | _ => true
  end.

End Pass.

(** ** Concrete resources used in the examples below *)

Module Samples.

Import Plugin Discovery.

Definition invalidText : string := String "255"%char EmptyString.

Definition secretRef : ResourceRef := mkRef "gcloud-creds" "gloo-system".

Definition functions : list GfuncFunctionSpec :=
  [ mkGfuncFunctionSpec "f1" "projects/p/locations/l/functions/one"
      "https://l-p.cloudfunctions.net/one";
    mkGfuncFunctionSpec "f3" "projects/p/locations/l/functions/three"
      "https://l-p.cloudfunctions.net/three" ].

Definition gcloudSpec : gcloud_UpstreamSpec :=
  mkGcloudUpstreamSpec "l" "p" secretRef functions.

Definition gcloudUpstream : Upstream :=
  mkUpstream (mkMetadata "gfuncs" "gloo-system")
    (Some (mkUpstreamSpec (Some (UpstreamSpec_Gcloud gcloudSpec)))).

(** The upstream the test helper [getUpstream] builds. *)
Definition kubeUpstream : Upstream :=
  mkUpstream (mkMetadata "us" "ns")
    (Some (mkUpstreamSpec
       (Some (UpstreamSpec_Kube (mkKubeUpstreamSpec "svc" "ns" 80))))).

Definition goodSecret : Secret :=
  mkSecret (mkMetadata "gcloud-creds" "gloo-system")
    (Some (Secret_Gcloud (mkGcloudSecret "key-id" "{}"))).

Definition badSecret : Secret :=
  mkSecret (mkMetadata "gcloud-creds" "gloo-system")
    (Some (Secret_Gcloud (mkGcloudSecret "" invalidText))).

Definition otherSecret : Secret :=
  mkSecret (mkMetadata "gcloud-creds" "gloo-system")
    (Some (Secret_Other "aws")).

Definition paramsWith (secrets : list Secret) : Params :=
  mkParams (mkSnapshot [gcloudUpstream; kubeUpstream] secrets).

Definition emptyCluster : Cluster :=
  mkCluster None Cluster_AUTO None None ∅.

Definition emptyRoute : envoy_Route := mkEnvoyRoute ∅.

Definition routeTo (logicalName : string) : Route :=
  mkRoute "/"
    (mkDestination (Some (Ref (up_Metadata gcloudUpstream)))
       (Some (mkDestinationSpec
          (Some (DestinationSpec_Gcloud
             (mkGcloudDestinationSpec logicalName false)))))).

Definition initialised : plugin := fst (Init (NewPlugin false) (mkInitParams 0)).

Definition recordedPlugin : plugin :=
  mkPlugin (Some {[ Ref (up_Metadata gcloudUpstream) := gcloudSpec ]})
    (Some 0%nat) false.

(** A provider that lists function [b] before function [a]. *)
Definition functionB : CloudFunction :=
  mkCloudFunction "b" "READY" (Some (mkHTTPSTrigger "https://l-p.cloudfunctions.net/b")).
Definition functionA : CloudFunction :=
  mkCloudFunction "a" "ACTIVE" (Some (mkHTTPSTrigger "https://l-p.cloudfunctions.net/a")).
Definition functionDown : CloudFunction :=
  mkCloudFunction "c" "OFFLINE" (Some (mkHTTPSTrigger "https://l-p.cloudfunctions.net/c")).
Definition functionEvent : CloudFunction :=
  mkCloudFunction "d" "READY" None.

Definition providerListing (pages : list ListFunctionsResponse) : GoogleAPI :=
  mkGoogleAPI (fun _ => None) None (fun _ => (pages, None)).

Definition discovery : GcloudGfuncFunctionDiscovery :=
  mkDiscovery 5 gcloudUpstream.

Definition withFunctions (fs : list GfuncFunctionSpec) : Upstream :=
  mkUpstream (mkMetadata "gfuncs" "gloo-system")
    (Some (mkUpstreamSpec (Some (UpstreamSpec_Gcloud
       (mkGcloudUpstreamSpec "l" "p" secretRef fs))))).

Definition providerError : error := ExternalError "googleapi: Error 503".

(** A run of the discovery loop: two passes whose poll fails with a
    provider error, then a pass that is cancelled while it sleeps. *)
Definition cancelledRun (i : nat) : iteration :=
  if Nat.ltb i 2
  then mkIteration (Some providerError) None None
  else mkIteration None None (Some (ContextError Canceled)).

(** A run whose context is never cancelled and whose every poll fails. *)
Definition failingRun (i : nat) : iteration :=
  mkIteration (Some providerError) None None.

End Samples.

(** ** The command that creates a gcloud secret *)

Module Cli.

Definition flagDefaultGcloudAccessKey : string := "".
Definition flagDefaultGcloudJsonKey : string := "".

Definition gcloudPromptAccessKey : string :=
  "Enter Gcloud Access Key ID (leave empty to read credentials from ~/.gcloud/credentials): ".
Definition gcloudPromptJsonKey : string := "Enter Gcloud Json Key".

(** [options.GcloudSecret] *)
Record GcloudSecretInput : Type := mkGcloudSecretInput {
  in_AccessKey : string;
  in_JsonKey : string
}.

(** The part of [options.Options] the command reads: [Top.Interactive],
    [Metadata], [Create.DryRun] and [Create.InputSecret.GcloudSecret]. *)
Record Options : Type := mkOptions {
  Interactive : bool;
  opts_Metadata : Metadata;
  DryRun : bool;
  InputGcloudSecret : GcloudSecretInput
}.

(** What the command does to the outside, in the order it does it. *)
Inductive event : Type :=
| Asked (msg : string)
    (* cliutil.GetStringInput was called with this prompt *)
| PrintedKubeSecret (secret : Secret)
    (* common.PrintKubeSecret was called *)
| WriteCalled (secret : Secret)
    (* secretClient.Write was called *)
| Printf (format : string) (args : list fmt_arg).

(** The helpers of other packages: how the arguments are parsed into the
    options, what a prompt stores in the value it is given (and whether it
    fails), and whether printing and writing a secret fail. *)
Record Env : Type := mkEnv {
  MetadataArgsParse : Options -> list string -> Options + error;
  GetStringInput : string -> string -> string * option error;
  PrintKubeSecret : Secret -> option error;
  secretClient_Write : Secret -> option error
}.

(** [flags.StringVar]: a flag that is not given leaves its default. *)
Definition bindFlags (opts : Options) (accessKeyFlag jsonKeyFlag : option string)
  : Options :=
  {| Interactive := Interactive opts;
     opts_Metadata := opts_Metadata opts;
     DryRun := DryRun opts;
     InputGcloudSecret :=
       {| in_AccessKey :=
            match accessKeyFlag with
            | Some v => v
            | None => flagDefaultGcloudAccessKey
            end;
          in_JsonKey :=
            match jsonKeyFlag with
            | Some v => v
            | None => flagDefaultGcloudJsonKey
            end |} |}.

Definition GcloudSecretArgsInteractive (env : Env) (meta : Metadata)
    (input : GcloudSecretInput) (log : list event)
  : list event * GcloudSecretInput * option error :=
  let '(accessKey, err) :=
    GetStringInput env gcloudPromptAccessKey (in_AccessKey input) in
  let log := (log ++ [Asked gcloudPromptAccessKey])%list in
  let input := {| in_AccessKey := accessKey; in_JsonKey := in_JsonKey input |} in
  match err with
  | Some err => (log, input, Some err)
  | None =>
    let '(jsonKey, err) :=
      GetStringInput env gcloudPromptJsonKey (in_JsonKey input) in
    let log := (log ++ [Asked gcloudPromptJsonKey])%list in
    let input :=
      {| in_AccessKey := in_AccessKey input; in_JsonKey := jsonKey |} in
    match err with
    | Some err => (log, input, Some err)
    | None => (log, input, None)
    end
  end.

Definition newline : string := String "010"%char EmptyString.

Definition createGcloudSecret (env : Env) (meta : Metadata)
    (input : GcloudSecretInput) (dryRun : bool) (log : list event)
  : list event * option error :=
  let secret :=
    {| sec_Metadata := meta;
       Kind := Some (Secret_Gcloud {| AccessKey := in_AccessKey input;
                                      JsonKey := in_JsonKey input |}) |} in
  if dryRun
  then ((log ++ [PrintedKubeSecret secret])%list, PrintKubeSecret env secret)
  else
    let log := (log ++ [WriteCalled secret])%list in
    match secretClient_Write env secret with
    | Some err => (log, Some err)
    | None =>
      ((log ++ [Printf ("Created Gcloud secret [%v] in namespace [%v]"
                        +:+ newline)
                  [ArgString (Name meta); ArgString (Namespace meta)]])%list,
       None)
    end.

(** [RunE] of the command: the options as the run leaves them, what was
    done, and the error. *)
Definition RunE (env : Env) (opts : Options) (args : list string)
    (log : list event) : Options * list event * option error :=
  match MetadataArgsParse env opts args with
  | inr err => (opts, log, Some err)
  | inl opts =>
    let '(log, input, err) :=
      if Interactive opts
      then GcloudSecretArgsInteractive env (opts_Metadata opts)
             (InputGcloudSecret opts) log
      else (log, InputGcloudSecret opts, None) in
    let opts :=
      {| Interactive := Interactive opts;
         opts_Metadata := opts_Metadata opts;
         DryRun := DryRun opts;
         InputGcloudSecret := input |} in
    match err with
    | Some err => (opts, log, Some err)
    | None =>
      let '(log, err) :=
        createGcloudSecret env (opts_Metadata opts) input (DryRun opts) log in
      (opts, log, err)
    end
  end.

(** [gcloudCmd]: the flags are bound, then [RunE] runs. *)
Definition gcloudCmd (env : Env) (opts : Options)
    (accessKeyFlag jsonKeyFlag : option string) (args : list string)
  : Options * list event * option error :=
  RunE env (bindFlags opts accessKeyFlag jsonKeyFlag) args [].

Definition isWrite (e : event) : bool :=
  match e with WriteCalled _ => true | _ => false end.
Definition isAsked (e : event) : bool :=
  match e with Asked _ => true | _ => false end.
Definition isPrintf (e : event) : bool :=
  match e with Printf _ _ => true | _ => false end.

End Cli.

(** ** The helpers of the upstreams client test *)

Module UpstreamsTest.

Record corev1_ServicePort : Type := mkServicePort {
  sp_Name : string;
  sp_Port : Z
}.

Record Service : Type := mkService {
  svc_Namespace : string;
  svc_Name : string;
  svc_Ports : list corev1_ServicePort
}.

(** [fmt.Sprintf("port-%d", i)] *)
Definition portName (i : nat) : string := "port-" +:+ pretty i.

Definition getService (name namespace : string) (ports : list Z) : Service :=
  {| svc_Namespace := namespace;
     svc_Name := name;
     svc_Ports :=
       snd (fold_left
              (fun (acc : nat * list corev1_ServicePort) port =>
                 (S (fst acc),
                  (snd acc ++ [{| sp_Name := portName (fst acc);
                                  sp_Port := port |}])%list))
              ports (0, [])) |}.

Definition getUpstream (name namespace svcName svcNs : string) (port : N)
  : Upstream :=
  {| up_Metadata := {| Name := name; Namespace := namespace |};
     up_UpstreamSpec :=
       Some {| UpstreamType_of :=
         Some (UpstreamSpec_Kube
                 {| ServiceName := svcName;
                    ServiceNamespace := svcNs;
                    ServicePort := port |}) |} |}.

End UpstreamsTest.

(** ** What a pass records *)

Module Recorded.

(** The gcloud spec a call of [ProcessUpstream] hands over for the
    reference [ref], if it is a call for a gcloud Backend of that
    reference. *)
Definition gcloudFor (ref : ResourceRef) (c : Pass.call)
  : option gcloud_UpstreamSpec :=
  match c with
  | Pass.CallProcessUpstream in_ _ =>
    match up_UpstreamSpec in_ with
    | Some spec =>
      match UpstreamType_of spec with
      | Some (UpstreamSpec_Gcloud g) =>
        if decide (Ref (up_Metadata in_) = ref) then Some g else None
      | _ => None
      end
    | None => None
    end
  | _ => None
  end.

(** The spec of the last gcloud Backend of reference [ref] among the
    calls; [before] when there is none. *)
Fixpoint lastGcloud (ref : ResourceRef) (calls : list Pass.call)
    (before : option gcloud_UpstreamSpec) : option gcloud_UpstreamSpec :=
  match calls with
  | [] => before
  | c :: rest =>
    lastGcloud ref rest
      (match gcloudFor ref c with Some g => Some g | None => before end)
  end.

End Recorded.

(** ** Further concrete inputs *)

Module Samples2.

Import Cli.

Definition meta : Metadata := mkMetadata "gcloud-creds" "gloo-system".

Definition options (interactive dryRun : bool) : Options :=
  mkOptions interactive meta dryRun (mkGcloudSecretInput "" "").

(** Arguments parse, the user answers every prompt, storage accepts. *)
Definition agreeable : Env :=
  mkEnv (fun opts _ => inl opts)
        (fun msg _ =>
           if String.eqb msg gcloudPromptAccessKey
           then ("key-id", None) else ("{}", None))
        (fun _ => None) (fun _ => None).

(** The user breaks off at the first prompt. *)
Definition interrupted : Env :=
  mkEnv (fun opts _ => inl opts)
        (fun _ old => (old, Some (ExternalError "interrupt")))
        (fun _ => None) (fun _ => None).

(** Storage refuses the write. *)
Definition readOnly : Env :=
  mkEnv (fun opts _ => inl opts)
        (fun _ old => (old, None))
        (fun _ => None) (fun _ => Some (ExternalError "forbidden")).

Definition emptyKeys : Secret :=
  mkSecret meta (Some (Secret_Gcloud (mkGcloudSecret "" ""))).

Definition noAccessKey : Secret :=
  mkSecret meta (Some (Secret_Gcloud (mkGcloudSecret "" "{}"))).

End Samples2.

(** * Properties *)

Import Plugin.

(** ** Resolving a function of a route *)

Lemma getFunction_unknown (logicalName : string) (fs : list GfuncFunctionSpec) :
  Forall (fun f => LogicalName f <> logicalName) fs ->
  getFunction logicalName fs =
    (None, Some (Errorf "unknown function %v" [ArgString logicalName])).
Proof.
  induction 1 as [|f fs Hf _ IH]; simpl; [reflexivity|].
  destruct (String.eqb_spec (LogicalName f) logicalName) as [E|_];
    [contradiction | exact IH].
Qed.

Lemma getFunction_first (logicalName : string)
    (pre post : list GfuncFunctionSpec) (f : GfuncFunctionSpec) :
  Forall (fun h => LogicalName h <> logicalName) pre ->
  LogicalName f = logicalName ->
  getFunction logicalName (pre ++ f :: post)%list =
    (Some (Msg_GfuncPerRoute
             {| pr_Name := GfuncFunctionName f; pr_Url := Url f |}), None).
Proof.
  intros Hpre Hf. induction Hpre as [|h pre Hh _ IH]; simpl.
  - rewrite Hf, String.eqb_refl. reflexivity.
  - destruct (String.eqb_spec (LogicalName h) logicalName) as [E|_];
      [contradiction | exact IH].
Qed.

(** A list that holds a function of the given logical name splits at the
    first such function. *)
Lemma first_with_name (logicalName : string) (fs : list GfuncFunctionSpec) :
  Exists (fun f => LogicalName f = logicalName) fs ->
  exists pre f post,
    fs = (pre ++ f :: post)%list /\
    Forall (fun h => LogicalName h <> logicalName) pre /\
    LogicalName f = logicalName.
Proof.
  induction fs as [|g fs IH]; intros Hex; [inversion Hex|].
  destruct (String.eqb_spec (LogicalName g) logicalName) as [E|NE].
  - exists [], g, fs. repeat split; [constructor | exact E].
  - inversion Hex as [? ? Hg|? ? Hrest]; subst; [contradiction|].
    destruct (IH Hrest) as (pre & f & post & -> & Hpre & Hf).
    exists (g :: pre), f, post. repeat split; [|exact Hf].
    constructor; assumption.
Qed.

Lemma filterNames_differ : filterName <> transformation_FilterName.
Proof. discriminate. Qed.

(** The first call of [MarkPerFilterConfig] in [ProcessRoute]. *)
Lemma mark_gfunc (p : plugin) (in_ : Route) (out : envoy_Route)
    (upstream : ResourceRef) (gds : gcloud_DestinationSpec)
    (gfuncSpec : gcloud_UpstreamSpec) :
  GetUpstream (route_Destination in_) = Some upstream ->
  dest_DestinationSpec (route_Destination in_) =
    Some (mkDestinationSpec (Some (DestinationSpec_Gcloud gds))) ->
  recorded p upstream = Some gfuncSpec ->
  pluginutils.MarkPerFilterConfig in_ out filterName gfuncPerFilterConfig p =
    match getFunction (dest_LogicalName gds) (GfuncFunctions gfuncSpec) with
    | (_, Some err) => (p, out, Some err)
    | (Some msg, None) =>
      (p, {| PerFilterConfig := <[filterName:=msg]> (PerFilterConfig out) |},
       None)
    | (None, None) => (p, out, None)
    end.
Proof.
  intros Hup Hspec Hrec.
  unfold pluginutils.MarkPerFilterConfig, gfuncPerFilterConfig.
  rewrite Hup, Hspec. simpl. rewrite Hrec.
  destruct (getFunction _ _) as [[msg|] [err|]]; reflexivity.
Qed.

(** The second call never fails and leaves the configuration of every
    other filter, and the recorded upstreams, as they were. *)
Lemma mark_transform (p : plugin) (in_ : Route) (out : envoy_Route) :
  exists p' out',
    pluginutils.MarkPerFilterConfig in_ out transformation_FilterName
      transformPerFilterConfig p = (p', out', None) /\
    recordedUpstreams p' = recordedUpstreams p /\
    PerFilterConfig out' !! filterName = PerFilterConfig out !! filterName.
Proof.
  unfold pluginutils.MarkPerFilterConfig, transformPerFilterConfig.
  destruct (dest_DestinationSpec (route_Destination in_)) as [[[[gds|other]|]]|];
    try (eexists _, _; repeat split; reflexivity).
  simpl. destruct (ResponseTransformation gds); simpl;
    eexists _, _; (split; [reflexivity|]); (split; [reflexivity|]); simpl;
    [|reflexivity].
  apply lookup_insert_ne, not_eq_sym, filterNames_differ.
Qed.

(** What [ProcessRoute] does with a gcloud destination whose upstream was
    recorded, in terms of the result of the function lookup. *)
Lemma ProcessRoute_gcloud_recorded (p : plugin) (params : Params) (in_ : Route)
    (out : envoy_Route) (upstream : ResourceRef)
    (gds : gcloud_DestinationSpec) (gfuncSpec : gcloud_UpstreamSpec) :
  GetUpstream (route_Destination in_) = Some upstream ->
  dest_DestinationSpec (route_Destination in_) =
    Some (mkDestinationSpec (Some (DestinationSpec_Gcloud gds))) ->
  recorded p upstream = Some gfuncSpec ->
  match getFunction (dest_LogicalName gds) (GfuncFunctions gfuncSpec) with
  | (_, Some err) => ProcessRoute p params in_ out = (p, out, Some err)
  | (Some msg, None) =>
    exists p' out',
      ProcessRoute p params in_ out = (p', out', None) /\
      recordedUpstreams p' = recordedUpstreams p /\
      PerFilterConfig out' !! filterName = Some msg
  | (None, None) => True
  end.
Proof.
  intros Hup Hspec Hrec.
  pose proof (mark_gfunc p in_ out upstream gds gfuncSpec Hup Hspec Hrec) as H1.
  destruct (getFunction (dest_LogicalName gds) (GfuncFunctions gfuncSpec))
    as [[msg|] [err|]]; try exact I;
    try (unfold ProcessRoute; rewrite H1; reflexivity).
  destruct (mark_transform p in_
              {| PerFilterConfig := <[filterName:=msg]> (PerFilterConfig out) |})
    as (p' & out' & H2 & Hp' & Hout').
  exists p', out'. unfold ProcessRoute. rewrite H1, H2.
  repeat split; [exact Hp'|]. rewrite Hout'. apply lookup_insert_eq.
Qed.

(** C1. For a Route whose DestinationSpec is the gcloud variant and whose
    Backend was recorded, [ProcessRoute] resolves the logical function name
    in the recorded function list by equality on [LogicalName]: when no
    function of the list has that name it returns the error "unknown
    function" naming it (and leaves the route untouched); when one has, it
    returns no error and a route whose gcloud filter configuration carries
    the name and the URL of that function (the first of that name). *)
Theorem C1_ProcessRoute_resolves_logical_name
    (p : plugin) (params : Params) (in_ : Route) (out : envoy_Route)
    (upstream : ResourceRef) (gds : gcloud_DestinationSpec)
    (gfuncSpec : gcloud_UpstreamSpec) :
  GetUpstream (route_Destination in_) = Some upstream ->
  dest_DestinationSpec (route_Destination in_) =
    Some (mkDestinationSpec (Some (DestinationSpec_Gcloud gds))) ->
  recorded p upstream = Some gfuncSpec ->
  (Forall (fun f => LogicalName f <> dest_LogicalName gds)
          (GfuncFunctions gfuncSpec) ->
   ProcessRoute p params in_ out =
     (p, out,
      Some (Errorf "unknown function %v" [ArgString (dest_LogicalName gds)])))
  /\
  (Exists (fun f => LogicalName f = dest_LogicalName gds)
          (GfuncFunctions gfuncSpec) ->
   exists pre f post p' out',
     GfuncFunctions gfuncSpec = (pre ++ f :: post)%list /\
     Forall (fun h => LogicalName h <> dest_LogicalName gds) pre /\
     LogicalName f = dest_LogicalName gds /\
     ProcessRoute p params in_ out = (p', out', None) /\
     PerFilterConfig out' !! filterName =
       Some (Msg_GfuncPerRoute
               {| pr_Name := GfuncFunctionName f; pr_Url := Url f |})).
Proof.
  intros Hup Hspec Hrec.
  pose proof (ProcessRoute_gcloud_recorded p params in_ out upstream gds
                gfuncSpec Hup Hspec Hrec) as H.
  split.
  - intros Hnone. rewrite (getFunction_unknown _ _ Hnone) in H. exact H.
  - intros Hsome.
    destruct (first_with_name _ _ Hsome) as (pre & f & post & Hfs & Hpre & Hf).
    rewrite Hfs, (getFunction_first _ _ _ _ Hpre Hf) in H.
    destruct H as (p' & out' & Hrun & _ & Hcfg).
    exists pre, f, post, p', out'. repeat split; assumption.
Qed.

(** The spec's example: functions f1 and f3 are recorded; a route to f2
    fails naming f2, a route to f3 carries the name and URL of f3. *)
Lemma C1_witness :
  ProcessRoute Samples.recordedPlugin (Samples.paramsWith [])
      (Samples.routeTo "f2") Samples.emptyRoute =
    (Samples.recordedPlugin, Samples.emptyRoute,
     Some (Errorf "unknown function %v" [ArgString "f2"]))
  /\
  exists pre f post p' out',
    Samples.functions = (pre ++ f :: post)%list /\
    Forall (fun h => LogicalName h <> "f3") pre /\
    LogicalName f = "f3" /\
    ProcessRoute Samples.recordedPlugin (Samples.paramsWith [])
      (Samples.routeTo "f3") Samples.emptyRoute = (p', out', None) /\
    PerFilterConfig out' !! filterName =
      Some (Msg_GfuncPerRoute
              {| pr_Name := GfuncFunctionName f; pr_Url := Url f |}).
Proof.
  split.
  - apply (C1_ProcessRoute_resolves_logical_name Samples.recordedPlugin
             (Samples.paramsWith []) (Samples.routeTo "f2") Samples.emptyRoute
             (Ref (up_Metadata Samples.gcloudUpstream))
             (mkGcloudDestinationSpec "f2" false) Samples.gcloudSpec);
      [reflexivity | reflexivity | reflexivity |].
    repeat constructor; discriminate.
  - apply (C1_ProcessRoute_resolves_logical_name Samples.recordedPlugin
             (Samples.paramsWith []) (Samples.routeTo "f3") Samples.emptyRoute
             (Ref (up_Metadata Samples.gcloudUpstream))
             (mkGcloudDestinationSpec "f3" false) Samples.gcloudSpec);
      [reflexivity | reflexivity | reflexivity |].
    apply Exists_cons_tl, Exists_cons_hd. reflexivity.
Defined.

(** ** Backends of other providers *)

Lemma ProcessUpstream_other (p : plugin) (params : Params) (in_ : Upstream)
    (out : Cluster) (spec : UpstreamSpec) :
  up_UpstreamSpec in_ = Some spec ->
  (forall g, UpstreamType_of spec <> Some (UpstreamSpec_Gcloud g)) ->
  ProcessUpstream p params in_ out = Returns (p, out, None).
Proof.
  intros Hspec Hother. unfold ProcessUpstream. rewrite Hspec.
  destruct (UpstreamType_of spec) as [[k|g|other]|] eqn:E; try reflexivity.
  exfalso. exact (Hother g eq_refl).
Qed.

(** C2. For a Backend whose ProviderSpec is not the gcloud variant (one of
    the other variants, or a spec with no variant set), [ProcessUpstream]
    returns no error and hands back the output cluster and the plugin
    state exactly as it received them. *)
Theorem C2_ProcessUpstream_not_ours
    (p : plugin) (params : Params) (in_ : Upstream) (out : Cluster)
    (spec : UpstreamSpec) :
  up_UpstreamSpec in_ = Some spec ->
  (forall g, UpstreamType_of spec <> Some (UpstreamSpec_Gcloud g)) ->
  ProcessUpstream p params in_ out = Returns (p, out, None).
Proof. exact (ProcessUpstream_other p params in_ out spec). Qed.

Lemma C2_witness :
  ProcessUpstream Samples.recordedPlugin (Samples.paramsWith [])
      Samples.kubeUpstream Samples.emptyCluster =
    Returns (Samples.recordedPlugin, Samples.emptyCluster, None).
Proof.
  apply (C2_ProcessUpstream_not_ours Samples.recordedPlugin
           (Samples.paramsWith []) Samples.kubeUpstream Samples.emptyCluster
           (mkUpstreamSpec
              (Some (UpstreamSpec_Kube (mkKubeUpstreamSpec "svc" "ns" 80))))).
  - reflexivity.
  - intros g. simpl. discriminate.
Defined.

(** ** Validation of the secret *)

Lemma secretErrs_both (accessKey jsonKey : string) :
  accessKey = "" \/ utf8.Valid accessKey = false ->
  jsonKey = "" \/ utf8.Valid jsonKey = false ->
  secretErrs accessKey jsonKey =
    Some (MultiError [Errorf "access_key is not a valid string" [];
                      Errorf "json_key is not a valid string" []]).
Proof.
  intros Ha Hj. unfold secretErrs.
  assert (String.eqb accessKey "" || negb (utf8.Valid accessKey) = true) as ->.
  { destruct Ha as [->| ->]; [reflexivity | apply orb_true_r]. }
  assert (String.eqb jsonKey "" || negb (utf8.Valid jsonKey) = true) as ->.
  { destruct Hj as [->| ->]; [reflexivity | apply orb_true_r]. }
  reflexivity.
Qed.

(** C3. When the secret a gcloud Backend refers to is found, is a gcloud
    secret, and both its fields are bad (each one empty or not valid
    UTF-8), [ProcessUpstream] returns one aggregated error that lists the
    problem of access_key and the problem of json_key. *)
Theorem C3_ProcessUpstream_aggregates_secret_errors
    (p : plugin) (params : Params) (in_ : Upstream) (out : Cluster)
    (spec : UpstreamSpec) (g : gcloud_UpstreamSpec)
    (m : gmap ResourceRef gcloud_UpstreamSpec)
    (secret : Secret) (gs : GcloudSecret) :
  up_UpstreamSpec in_ = Some spec ->
  UpstreamType_of spec = Some (UpstreamSpec_Gcloud g) ->
  recordedUpstreams p = Some m ->
  Find (Secrets (Snapshot params))
       (ref_Namespace (SecretRef g)) (ref_Name (SecretRef g)) = inl secret ->
  Kind secret = Some (Secret_Gcloud gs) ->
  AccessKey gs = "" \/ utf8.Valid (AccessKey gs) = false ->
  JsonKey gs = "" \/ utf8.Valid (JsonKey gs) = false ->
  exists p' out',
    ProcessUpstream p params in_ out =
      Returns (p', out',
               Some (MultiError
                       [Errorf "access_key is not a valid string" [];
                        Errorf "json_key is not a valid string" []])).
Proof.
  intros Hspec Htype Hmap Hfind Hkind Ha Hj.
  unfold ProcessUpstream. rewrite Hspec, Htype, Hmap. simpl.
  rewrite Hfind, Hkind, (secretErrs_both _ _ Ha Hj).
  eexists _, _. reflexivity.
Qed.

(** The spec's example: an empty access key and a JSON key that is not
    valid UTF-8. *)
Lemma C3_witness :
  exists p' out',
    ProcessUpstream Samples.initialised (Samples.paramsWith [Samples.badSecret])
        Samples.gcloudUpstream Samples.emptyCluster =
      Returns (p', out',
               Some (MultiError
                       [Errorf "access_key is not a valid string" [];
                        Errorf "json_key is not a valid string" []])).
Proof.
  apply (C3_ProcessUpstream_aggregates_secret_errors Samples.initialised
           (Samples.paramsWith [Samples.badSecret]) Samples.gcloudUpstream
           Samples.emptyCluster
           (mkUpstreamSpec (Some (UpstreamSpec_Gcloud Samples.gcloudSpec)))
           Samples.gcloudSpec ∅ Samples.badSecret
           (mkGcloudSecret "" Samples.invalidText)).
  - reflexivity.
  - reflexivity.
  - reflexivity.
  - reflexivity.
  - reflexivity.
  - left. reflexivity.
  - right. vm_compute. reflexivity.
Defined.

(** ** Initialisation *)

(** C8. Right after [Init] the map of recorded upstreams is the empty map,
    whatever the plugin had recorded before: no reference is bound, the
    map has no entry, and [Init] returns no error. *)
Theorem C8_Init_discards_recorded_upstreams
    (p : plugin) (params : InitParams) :
  snd (Init p params) = None /\
  recordedUpstreams (fst (Init p params)) = Some ∅ /\
  (forall ref, recorded (fst (Init p params)) ref = None) /\
  len_recordedUpstreams (fst (Init p params)) = 0.
Proof.
  repeat split.
Qed.

(** ** Routes to a Backend whose [ProcessUpstream] failed *)

(** A route to a recorded upstream that names one of its functions is
    translated: no error, and the gcloud filter configuration carries the
    first function of that name. *)
Lemma ProcessRoute_found (p : plugin) (params : Params) (in_ : Route)
    (out : envoy_Route) (upstream : ResourceRef)
    (gds : gcloud_DestinationSpec) (gfuncSpec : gcloud_UpstreamSpec) :
  GetUpstream (route_Destination in_) = Some upstream ->
  dest_DestinationSpec (route_Destination in_) =
    Some (mkDestinationSpec (Some (DestinationSpec_Gcloud gds))) ->
  recorded p upstream = Some gfuncSpec ->
  Exists (fun f => LogicalName f = dest_LogicalName gds)
         (GfuncFunctions gfuncSpec) ->
  exists pre f post p' out',
    GfuncFunctions gfuncSpec = (pre ++ f :: post)%list /\
    Forall (fun h => LogicalName h <> dest_LogicalName gds) pre /\
    LogicalName f = dest_LogicalName gds /\
    ProcessRoute p params in_ out = (p', out', None) /\
    PerFilterConfig out' !! filterName =
      Some (Msg_GfuncPerRoute
              {| pr_Name := GfuncFunctionName f; pr_Url := Url f |}).
Proof.
  intros Hup Hspec Hrec Hsome.
  pose proof (ProcessRoute_gcloud_recorded p params in_ out upstream gds
                gfuncSpec Hup Hspec Hrec) as H.
  destruct (first_with_name _ _ Hsome) as (pre & f & post & Hfs & Hpre & Hf).
  rewrite Hfs, (getFunction_first _ _ _ _ Hpre Hf) in H.
  destruct H as (p' & out' & Hrun & _ & Hcfg).
  exists pre, f, post, p', out'. repeat split; assumption.
Qed.

(** [ProcessUpstream] on a gcloud upstream returns (it does not panic) once
    the plugin is initialised, and the state it returns has the upstream's
    spec recorded under the upstream's reference, with or without error. *)
Lemma ProcessUpstream_records (p : plugin) (params : Params) (in_ : Upstream)
    (out : Cluster) (spec : UpstreamSpec) (g : gcloud_UpstreamSpec)
    (m : gmap ResourceRef gcloud_UpstreamSpec) :
  up_UpstreamSpec in_ = Some spec ->
  UpstreamType_of spec = Some (UpstreamSpec_Gcloud g) ->
  recordedUpstreams p = Some m ->
  exists out' err,
    ProcessUpstream p params in_ out =
      Returns ({| recordedUpstreams := Some (<[Ref (up_Metadata in_) := g]> m);
                  ctx := ctx p;
                  transformsAdded := transformsAdded p |}, out', err).
Proof.
  intros Hspec Htype Hmap. unfold ProcessUpstream.
  rewrite Hspec, Htype, Hmap. simpl.
  destruct (Find _ _ _) as [secret|err]; [|eexists _, _; reflexivity].
  destruct (Kind secret) as [[gs|other]|]; try (eexists _, _; reflexivity).
  destruct (secretErrs _ _); eexists _, _; reflexivity.
Qed.

(** C10. [ProcessUpstream] records the spec of a gcloud Backend before it
    looks the secret up: whenever it returns an error for the Backend, the
    state it leaves has the Backend's spec recorded, and a [ProcessRoute]
    on that state for a route that refers to the Backend and names a
    logical name present in its function list returns no error and a route
    carrying the gcloud filter configuration of that function. *)
Theorem C10_route_valid_after_failed_ProcessUpstream
    (p : plugin) (params : Params) (in_ : Upstream) (out : Cluster)
    (spec : UpstreamSpec) (g : gcloud_UpstreamSpec)
    (m : gmap ResourceRef gcloud_UpstreamSpec)
    (p' : plugin) (out' : Cluster) (err : error)
    (route : Route) (rout : envoy_Route) (gds : gcloud_DestinationSpec) :
  up_UpstreamSpec in_ = Some spec ->
  UpstreamType_of spec = Some (UpstreamSpec_Gcloud g) ->
  recordedUpstreams p = Some m ->
  ProcessUpstream p params in_ out = Returns (p', out', Some err) ->
  GetUpstream (route_Destination route) = Some (Ref (up_Metadata in_)) ->
  dest_DestinationSpec (route_Destination route) =
    Some (mkDestinationSpec (Some (DestinationSpec_Gcloud gds))) ->
  Exists (fun f => LogicalName f = dest_LogicalName gds) (GfuncFunctions g) ->
  recorded p' (Ref (up_Metadata in_)) = Some g /\
  exists pre f post p'' rout',
    GfuncFunctions g = (pre ++ f :: post)%list /\
    Forall (fun h => LogicalName h <> dest_LogicalName gds) pre /\
    LogicalName f = dest_LogicalName gds /\
    ProcessRoute p' params route rout = (p'', rout', None) /\
    PerFilterConfig rout' !! filterName =
      Some (Msg_GfuncPerRoute
              {| pr_Name := GfuncFunctionName f; pr_Url := Url f |}).
Proof.
  intros Hspec Htype Hmap Hrun Hup Hdest Hsome.
  destruct (ProcessUpstream_records p params in_ out spec g m Hspec Htype Hmap)
    as (out0 & err0 & Heq).
  rewrite Heq in Hrun. injection Hrun as <- _ _.
  assert (recorded
            {| recordedUpstreams := Some (<[Ref (up_Metadata in_) := g]> m);
               ctx := ctx p; transformsAdded := transformsAdded p |}
            (Ref (up_Metadata in_)) = Some g) as Hrec.
  { unfold recorded. simpl. apply lookup_insert_eq. }
  split; [exact Hrec|].
  exact (ProcessRoute_found _ params route rout _ gds g Hup Hdest Hrec Hsome).
Qed.

(** The three failures of [ProcessUpstream]: the secret is missing, is of
    another kind, or is invalid. *)
Example ProcessUpstream_missing_secret :
  exists p' out',
    ProcessUpstream Samples.initialised (Samples.paramsWith [])
        Samples.gcloudUpstream Samples.emptyCluster =
      Returns (p', out',
               Some (Wrapf (NotFound "gloo-system" "gcloud-creds")
                       "retrieving gcloud secret" [])).
Proof. eexists _, _. reflexivity. Qed.

Example ProcessUpstream_wrong_kind_secret :
  exists p' out',
    ProcessUpstream Samples.initialised
        (Samples.paramsWith [Samples.otherSecret])
        Samples.gcloudUpstream Samples.emptyCluster =
      Returns (p', out',
               Some (Errorf "secret %v is not an GCLOUD secret"
                       [ArgRef Samples.secretRef])).
Proof. eexists _, _. reflexivity. Qed.

Lemma C10_witness :
  exists pre f post p'' rout',
    Samples.functions = (pre ++ f :: post)%list /\
    Forall (fun h => LogicalName h <> "f3") pre /\
    LogicalName f = "f3" /\
    ProcessRoute
      (mkPlugin (Some {[ Ref (up_Metadata Samples.gcloudUpstream) :=
                           Samples.gcloudSpec ]}) (Some 0%nat) false)
      (Samples.paramsWith []) (Samples.routeTo "f3") Samples.emptyRoute =
      (p'', rout', None) /\
    PerFilterConfig rout' !! filterName =
      Some (Msg_GfuncPerRoute
              {| pr_Name := GfuncFunctionName f; pr_Url := Url f |}).
Proof.
  refine (proj2 (C10_route_valid_after_failed_ProcessUpstream
           Samples.initialised (Samples.paramsWith []) Samples.gcloudUpstream
           Samples.emptyCluster
           (mkUpstreamSpec (Some (UpstreamSpec_Gcloud Samples.gcloudSpec)))
           Samples.gcloudSpec ∅ _
           (mkCluster (Some Cluster_LOGICAL_DNS) Cluster_V4_ONLY
              (Some ("l-p.cloudfunctions.net", 443%N))
              (Some (mkUpstreamTlsContext "l-p.cloudfunctions.net")) ∅)
           (Wrapf (NotFound "gloo-system" "gcloud-creds")
              "retrieving gcloud secret" [])
           (Samples.routeTo "f3") Samples.emptyRoute
           (mkGcloudDestinationSpec "f3" false) _ _ _ _ _ _ _)).
  - reflexivity.
  - reflexivity.
  - reflexivity.
  - reflexivity.
  - reflexivity.
  - reflexivity.
  - apply Exists_cons_tl, Exists_cons_hd. reflexivity.
Defined.

(** ** Determinism of a pass *)

Lemma ProcessUpstream_alike (p1 p2 : plugin) (params : Params)
    (in_ : Upstream) (out : Cluster) :
  alike p1 p2 ->
  match ProcessUpstream p1 params in_ out,
        ProcessUpstream p2 params in_ out with
  | Returns (q1, out1, err1), Returns (q2, out2, err2) =>
    alike q1 q2 /\ out1 = out2 /\ err1 = err2
  | Panics msg1, Panics msg2 => msg1 = msg2
  | _, _ => False
  end.
Proof.
  unfold alike. destruct p1 as [r1 c1 t1], p2 as [r2 c2 t2]. simpl.
  intros <-. unfold ProcessUpstream. simpl.
  destruct (up_UpstreamSpec in_) as [spec|]; [|reflexivity].
  destruct (UpstreamType_of spec) as [[k|g|other]|]; try (repeat split).
  destruct r1 as [m|]; [|reflexivity]. simpl.
  destruct (Find _ _ _) as [secret|err]; [|repeat split].
  destruct (Kind secret) as [[gs|other]|]; try (repeat split).
  destruct (secretErrs _ _); repeat split.
Qed.

Lemma ProcessRoute_alike (p1 p2 : plugin) (params : Params)
    (in_ : Route) (out : envoy_Route) :
  alike p1 p2 ->
  match ProcessRoute p1 params in_ out, ProcessRoute p2 params in_ out with
  | (q1, out1, err1), (q2, out2, err2) =>
    alike q1 q2 /\ out1 = out2 /\ err1 = err2
  end.
Proof.
  unfold alike. destruct p1 as [r1 c1 t1], p2 as [r2 c2 t2]. simpl.
  intros <-.
  unfold ProcessRoute, pluginutils.MarkPerFilterConfig,
    gfuncPerFilterConfig, transformPerFilterConfig, recorded. simpl.
  destruct (dest_DestinationSpec (route_Destination in_)) as [[[[gds|other]|]]|];
    simpl; try (repeat split).
  - destruct (GetUpstream (route_Destination in_)) as [upstream|]; simpl.
    + destruct r1 as [m|]; [|repeat split].
      destruct (m !! upstream) as [gfuncSpec|]; [|repeat split].
      destruct (getFunction _ _) as [[msg|] [err|]]; try (repeat split);
        destruct (ResponseTransformation gds); repeat split.
    + destruct (ResponseTransformation gds); repeat split.
  - destruct (GetUpstream (route_Destination in_)); repeat split.
  - destruct (GetUpstream (route_Destination in_)); repeat split.
Qed.

Lemma HttpFilters_alike (p1 p2 : plugin) (params : Params)
    (listener : HttpListener) :
  alike p1 p2 ->
  HttpFilters p1 params listener = HttpFilters p2 params listener.
Proof.
  unfold alike, HttpFilters, len_recordedUpstreams. intros ->. reflexivity.
Qed.

Lemma runHooks_alike (params : Params) (calls : list Pass.call) :
  forall p1 p2, alike p1 p2 ->
  alike (fst (Pass.runHooks p1 params calls))
        (fst (Pass.runHooks p2 params calls)) /\
  snd (Pass.runHooks p1 params calls) = snd (Pass.runHooks p2 params calls).
Proof.
  induction calls as [|[in_ out|in_ out|listener] calls IH]; intros p1 p2 H;
    simpl.
  - split; [exact H | reflexivity].
  - pose proof (ProcessUpstream_alike p1 p2 params in_ out H) as Hstep.
    destruct (ProcessUpstream p1 params in_ out) as [[[q1 out1] err1]|msg1],
             (ProcessUpstream p2 params in_ out) as [[[q2 out2] err2]|msg2];
      try contradiction.
    + destruct Hstep as (Hq & -> & ->).
      destruct (IH q1 q2 Hq) as [Hfst Hsnd].
      destruct (Pass.runHooks q1 params calls) as [r1 o1],
               (Pass.runHooks q2 params calls) as [r2 o2].
      simpl in *. subst o2. split; [exact Hfst | reflexivity].
    + subst msg2. split; [exact H | reflexivity].
  - pose proof (ProcessRoute_alike p1 p2 params in_ out H) as Hstep.
    destruct (ProcessRoute p1 params in_ out) as [[q1 out1] err1],
             (ProcessRoute p2 params in_ out) as [[q2 out2] err2].
    destruct Hstep as (Hq & -> & ->).
    destruct (IH q1 q2 Hq) as [Hfst Hsnd].
    destruct (Pass.runHooks q1 params calls) as [r1 o1],
             (Pass.runHooks q2 params calls) as [r2 o2].
    simpl in *. subst o2. split; [exact Hfst | reflexivity].
  - rewrite (HttpFilters_alike p1 p2 params listener H).
    destruct (HttpFilters p2 params listener) as [filters err].
    destruct (IH p1 p2 H) as [Hfst Hsnd].
    destruct (Pass.runHooks p1 params calls) as [r1 o1],
             (Pass.runHooks p2 params calls) as [r2 o2].
    simpl in *. subst o2. split; [exact Hfst | reflexivity].
Qed.

(** C9. The outputs of a pass are determined by the Snapshot and the
    sequence of hook calls alone: two runs of [Init] followed by the same
    calls of [ProcessUpstream], [ProcessRoute] and [HttpFilters] on the
    same inputs produce the same cluster patches, route patches, staged
    filters and errors, whatever state the plugin was in before [Init]
    (upstreams recorded by an earlier pass, the transforms flag) and
    whatever context [Init] was given. *)
Theorem C9_pass_outputs_deterministic
    (p1 p2 : plugin) (init1 init2 : InitParams) (params : Params)
    (calls : list Pass.call) :
  snd (Pass.runPass p1 init1 params calls) =
  snd (Pass.runPass p2 init2 params calls).
Proof.
  unfold Pass.runPass. apply runHooks_alike. reflexivity.
Qed.

(** ** [sort.Slice] sorts *)

Section SliceSorts.

Context {A : Type} (less : A -> A -> bool).

Lemma sift_Permutation (x : A) (l : list A) :
  Permutation (sort.sift less x l) (x :: l).
Proof.
  induction l as [|y l IH]; simpl; [reflexivity|].
  destruct (less x y); [|reflexivity].
  rewrite IH. apply perm_swap.
Qed.

Lemma insertionSort_rev_Permutation (data acc : list A) :
  Permutation (fold_left (fun prefix_rev x => sort.sift less x prefix_rev)
                 data acc)
              (data ++ acc)%list.
Proof.
  revert acc. induction data as [|x data IH]; intros acc; simpl;
    [reflexivity|].
  rewrite IH, sift_Permutation. symmetry. apply Permutation_middle.
Qed.

(** The sorted slice is a permutation of the slice. *)
Lemma Slice_Permutation (x : list A) : Permutation (sort.Slice x less) x.
Proof.
  unfold sort.Slice, sort.insertionSort_rev.
  rewrite <- Permutation_rev, insertionSort_rev_Permutation, app_nil_r.
  reflexivity.
Qed.

Hypothesis less_asym : forall a b, less a b = true -> less b a = false.

Local Abbreviation notLess := (sort.notLess less).

Lemma sift_HdRel (x y : A) (l : list A) :
  less x y = true -> HdRel notLess y l -> HdRel notLess y (sort.sift less x l).
Proof.
  intros Hxy Hhd. destruct l as [|z l]; simpl.
  - constructor. exact (less_asym _ _ Hxy).
  - destruct (less x z).
    + constructor. inversion Hhd; assumption.
    + constructor. exact (less_asym _ _ Hxy).
Qed.

Lemma sift_Sorted (x : A) (l : list A) :
  Sorted notLess l -> Sorted notLess (sort.sift less x l).
Proof.
  induction 1 as [|y l Hl IH Hhd]; simpl.
  - repeat constructor.
  - destruct (less x y) eqn:E.
    + constructor; [exact IH | exact (sift_HdRel x y l E Hhd)].
    + constructor; [constructor; assumption | constructor; exact E].
Qed.

Lemma insertionSort_rev_Sorted (data acc : list A) :
  Sorted notLess acc ->
  Sorted notLess
    (fold_left (fun prefix_rev x => sort.sift less x prefix_rev) data acc).
Proof.
  revert acc. induction data as [|x data IH]; intros acc Hacc; simpl;
    [exact Hacc|].
  apply IH, sift_Sorted, Hacc.
Qed.

Lemma Sorted_snoc (R : A -> A -> Prop) (l : list A) (x : A) :
  Sorted R l -> (forall y, last l = Some y -> R y x) ->
  Sorted R (l ++ [x])%list.
Proof.
  induction 1 as [|y l Hl IH Hhd]; intros Hlast; simpl.
  - repeat constructor.
  - constructor.
    + apply IH. intros z Hz. apply Hlast.
      destruct l as [|w l]; [discriminate Hz | exact Hz].
    + destruct l as [|w l]; simpl.
      * constructor. apply Hlast. reflexivity.
      * constructor. inversion Hhd; assumption.
Qed.

Lemma Sorted_rev (l : list A) :
  Sorted notLess l -> Sorted (fun a b => less b a = false) (rev l).
Proof.
  induction 1 as [|y l Hl IH Hhd]; simpl; [constructor|].
  apply Sorted_snoc; [exact IH|].
  intros z Hz. destruct l as [|w l]; [discriminate Hz|].
  simpl in Hz. rewrite last_snoc in Hz. injection Hz as <-.
  inversion Hhd; assumption.
Qed.

(** In the sorted slice no element is less than its predecessor. *)
Lemma Slice_Sorted (x : list A) :
  Sorted (fun a b => less b a = false) (sort.Slice x less).
Proof.
  unfold sort.Slice, sort.insertionSort_rev.
  apply Sorted_rev, insertionSort_rev_Sorted. constructor.
Qed.

End SliceSorts.

(** A slice in which no element is less than another is left as it is. *)
Lemma Slice_nothing_less {A : Type} (less : A -> A -> bool) (x : list A) :
  (forall a b, In a x -> In b x -> less a b = false) ->
  sort.Slice x less = x.
Proof.
  intros Hless. unfold sort.Slice, sort.insertionSort_rev.
  assert (forall data acc,
             (forall a b, In a (data ++ acc)%list -> In b (data ++ acc)%list ->
                          less a b = false) ->
             fold_left (fun prefix_rev x => sort.sift less x prefix_rev)
               data acc = (rev data ++ acc)%list) as Hfold.
  { induction data as [|d data IH]; intros acc Hall; simpl; [reflexivity|].
    assert (sort.sift less d acc = d :: acc) as ->.
    { destruct acc as [|y acc]; simpl; [reflexivity|].
      rewrite Hall; [reflexivity | left; reflexivity |].
      right. apply in_or_app. right. left. reflexivity. }
    rewrite IH, <- app_assoc; [reflexivity|].
    intros a b Ha Hb. apply Hall.
    - apply in_app_or in Ha. destruct Ha as [Ha|[->|Ha]].
      + right. apply in_or_app. left. exact Ha.
      + left. reflexivity.
      + right. apply in_or_app. right. exact Ha.
    - apply in_app_or in Hb. destruct Hb as [Hb|[->|Hb]].
      + right. apply in_or_app. left. exact Hb.
      + left. reflexivity.
      + right. apply in_or_app. right. exact Hb. }
  rewrite Hfold, app_nil_r, rev_involutive; [reflexivity|].
  rewrite app_nil_r. exact Hless.
Qed.

(** ** Discovery: which functions are kept *)

Import Discovery.

Lemma supported_iff (result : CloudFunction) :
  supported result = true <->
  (cf_Status result = "READY" \/ cf_Status result = "ACTIVE") /\
  HttpsTrigger result <> None.
Proof.
  unfold supported, statusReady, statusActive.
  rewrite andb_true_iff, orb_true_iff, !String.eqb_eq.
  destruct (HttpsTrigger result); split; intros [H1 H2]; split;
    try assumption; try discriminate; try reflexivity.
  contradiction.
Qed.

Lemma collect_filter (response : ListFunctionsResponse)
    (results : list CloudFunction) :
  collect response results =
    ((results ++ List.filter supported (Functions response))%list, None).
Proof.
  unfold collect. f_equal.
  generalize (Functions response) as fs. intros fs. revert results.
  induction fs as [|r fs IH]; intros results; simpl.
  - symmetry. apply app_nil_r.
  - destruct (supported r); rewrite IH; [|reflexivity].
    rewrite <- app_assoc. reflexivity.
Qed.

Lemma Pages_collect (pages : list ListFunctionsResponse)
    (listErr : option error) (results : list CloudFunction) :
  Pages pages listErr collect results =
    ((results ++ List.filter supported (concat (map Functions pages)))%list,
     listErr).
Proof.
  revert results. induction pages as [|response pages IH]; intros results;
    cbn [Pages map concat].
  - cbn [List.filter]. rewrite app_nil_r. reflexivity.
  - rewrite collect_filter, IH, List.filter_app, app_assoc. reflexivity.
Qed.

(** The conversion never meets a function without trigger when its input
    went through the test of line 511, and it names each result after its
    function and gives it the URL of its trigger. *)
Lemma convert_supported (results : list CloudFunction) :
  Forall (fun r => supported r = true) results ->
  exists newfunctions,
    convertGfuncsToFunctionSpec results = Returns newfunctions /\
    Forall2 (fun r s =>
               GfuncFunctionName s = cf_Name r /\
               HttpsTrigger r = Some (mkHTTPSTrigger (Url s)))
            results newfunctions.
Proof.
  induction 1 as [|r results Hr _ IH]; simpl.
  - exists []. split; [reflexivity | constructor].
  - destruct IH as (newfunctions & -> & Hall).
    apply supported_iff in Hr. destruct Hr as [_ Htrigger].
    destruct (HttpsTrigger r) as [[url]|] eqn:E; [|contradiction].
    eexists. split; [reflexivity|].
    constructor; [|exact Hall]. simpl. split; [reflexivity | exact E].
Qed.

(** The logical name of a converted function is never set. *)
Lemma convert_LogicalName (results : list CloudFunction) :
  forall newfunctions,
  convertGfuncsToFunctionSpec results = Returns newfunctions ->
  Forall (fun s => LogicalName s = "") newfunctions.
Proof.
  induction results as [|r results IH]; simpl; intros newfunctions H.
  - injection H as <-. constructor.
  - destruct (HttpsTrigger r); [|discriminate].
    destruct (convertGfuncsToFunctionSpec results) as [l|]; [|discriminate].
    injection H as <-. constructor; [reflexivity | apply IH; reflexivity].
Qed.

Lemma filter_all_supported (l : list CloudFunction) :
  Forall (fun r => supported r = true) (List.filter supported l).
Proof.
  apply List.Forall_forall. intros r Hr.
  apply List.filter_In in Hr. apply Hr.
Qed.

(** C5. When [DetectFunctionsOnce] gets as far as listing the functions
    and the listing succeeds, its result is, in order, the conversion of
    exactly those functions of the provider's response that pass the test:
    a function of the response is kept if and only if its status equals
    "READY" or "ACTIVE" and it has an HTTPS trigger. *)
Theorem C5_DetectFunctionsOnce_keeps_ready_https
    (f : GcloudGfuncFunctionDiscovery) (api : GoogleAPI)
    (secrets : list Secret) (spec : UpstreamSpec) (g : gcloud_UpstreamSpec)
    (secret : Secret) (gs : GcloudSecret)
    (pages : list ListFunctionsResponse) :
  up_UpstreamSpec (upstream f) = Some spec ->
  UpstreamType_of spec = Some (UpstreamSpec_Gcloud g) ->
  Find secrets (ref_Namespace (SecretRef g)) (ref_Name (SecretRef g)) =
    inl secret ->
  Kind secret = Some (Secret_Gcloud gs) ->
  AccessKey gs = "" \/ utf8.Valid (AccessKey gs) = true ->
  JsonKey gs = "" \/ utf8.Valid (JsonKey gs) = true ->
  JWTConfigFromJSON api (JsonKey gs) = None ->
  cloudfunctions_New api = None ->
  Functions_List api
    ("projects/" +:+ ProjectId g +:+ "/locations/" +:+ "-") = (pages, None) ->
  exists kept newfunctions,
    DetectFunctionsOnce f api secrets = Returns (inl newfunctions) /\
    Forall2 (fun r s =>
               GfuncFunctionName s = cf_Name r /\
               HttpsTrigger r = Some (mkHTTPSTrigger (Url s)))
            kept newfunctions /\
    kept = List.filter supported (concat (map Functions pages)) /\
    forall r,
      In r kept <->
      In r (concat (map Functions pages)) /\
      (cf_Status r = "READY" \/ cf_Status r = "ACTIVE") /\
      HttpsTrigger r <> None.
Proof.
  intros Hspec Htype Hfind Hkind Ha Hj Hjwt Hnew Hlist.
  destruct (convert_supported _
              (filter_all_supported (concat (map Functions pages))))
    as (newfunctions & Hconv & Hall).
  exists (List.filter supported (concat (map Functions pages))), newfunctions.
  split; [|split; [exact Hall | split; [reflexivity|]]].
  - unfold DetectFunctionsOnce. rewrite Hspec, Htype, Hfind, Hkind.
    assert (negb (String.eqb (AccessKey gs) "")
            && negb (utf8.Valid (AccessKey gs)) = false) as ->.
    { destruct Ha as [->| ->]; [reflexivity | apply andb_false_r]. }
    assert (negb (String.eqb (JsonKey gs) "")
            && negb (utf8.Valid (JsonKey gs)) = false) as ->.
    { destruct Hj as [->| ->]; [reflexivity | apply andb_false_r]. }
    unfold newGoogleClient. rewrite Hjwt, Hnew.
    cbv zeta. rewrite Hlist, Pages_collect.
    cbn [app]. rewrite Hconv. reflexivity.
  - intros r. rewrite List.filter_In, supported_iff. reflexivity.
Qed.

(** Four functions are listed on two pages: ready with trigger, offline,
    ready without trigger, active with trigger. The first and the last are
    kept. *)
Lemma C5_witness :
  exists kept newfunctions,
    DetectFunctionsOnce Samples.discovery
        (Samples.providerListing
           [mkListFunctionsResponse [Samples.functionB; Samples.functionDown];
            mkListFunctionsResponse [Samples.functionEvent; Samples.functionA]])
        [Samples.goodSecret] = Returns (inl newfunctions) /\
    Forall2 (fun r s =>
               GfuncFunctionName s = cf_Name r /\
               HttpsTrigger r = Some (mkHTTPSTrigger (Url s)))
            kept newfunctions /\
    kept = [Samples.functionB; Samples.functionA] /\
    forall r,
      In r kept <->
      In r [Samples.functionB; Samples.functionDown;
            Samples.functionEvent; Samples.functionA] /\
      (cf_Status r = "READY" \/ cf_Status r = "ACTIVE") /\
      HttpsTrigger r <> None.
Proof.
  apply (C5_DetectFunctionsOnce_keeps_ready_https Samples.discovery
           (Samples.providerListing
              [mkListFunctionsResponse [Samples.functionB; Samples.functionDown];
               mkListFunctionsResponse [Samples.functionEvent; Samples.functionA]])
           [Samples.goodSecret]
           (mkUpstreamSpec (Some (UpstreamSpec_Gcloud Samples.gcloudSpec)))
           Samples.gcloudSpec Samples.goodSecret
           (mkGcloudSecret "key-id" "{}")
           [mkListFunctionsResponse [Samples.functionB; Samples.functionDown];
            mkListFunctionsResponse [Samples.functionEvent; Samples.functionA]]).
  - reflexivity.
  - reflexivity.
  - reflexivity.
  - reflexivity.
  - right. vm_compute. reflexivity.
  - right. vm_compute. reflexivity.
  - reflexivity.
  - reflexivity.
  - reflexivity.
Defined.

(** ** Discovery: the order of the list written back *)

Lemma ltb_asym (a b : string) : String.ltb a b = true -> String.ltb b a = false.
Proof.
  unfold String.ltb. rewrite (String.compare_antisym a b).
  destruct (String.compare b a); simpl; intros H;
    [discriminate | discriminate | reflexivity].
Qed.

(** Whatever list is sorted at line 419, no function of the sorted list has
    a logical name less than that of its predecessor, and the sorted list
    holds the same functions. *)
Lemma sorted_by_LogicalName (newfunctions : list GfuncFunctionSpec) :
  Sorted (fun a b => String.ltb (LogicalName b) (LogicalName a) = false)
         (sort.Slice newfunctions lessLogicalName) /\
  Permutation (sort.Slice newfunctions lessLogicalName) newfunctions.
Proof.
  split; [|apply Slice_Permutation].
  apply (Slice_Sorted lessLogicalName).
  intros a b. apply ltb_asym.
Qed.

(** Every function [DetectFunctionsOnce] returns has the empty logical
    name. *)
Lemma DetectFunctionsOnce_LogicalName (f : GcloudGfuncFunctionDiscovery)
    (api : GoogleAPI) (secrets : list Secret)
    (newfunctions : list GfuncFunctionSpec) :
  DetectFunctionsOnce f api secrets = Returns (inl newfunctions) ->
  Forall (fun s => LogicalName s = "") newfunctions.
Proof.
  unfold DetectFunctionsOnce.
  destruct (up_UpstreamSpec (upstream f)) as [spec|]; [|discriminate].
  destruct (UpstreamType_of spec) as [[k|g|other]|]; try discriminate.
  destruct (Find _ _ _) as [secret|err]; [|discriminate].
  destruct (Kind secret) as [[gs|other]|]; try discriminate.
  destruct (_ && _); [discriminate|].
  destruct (_ && _); [discriminate|].
  destruct (newGoogleClient _ _); [discriminate|].
  destruct (cloudfunctions_New api); [discriminate|].
  destruct (Functions_List api _) as [pages listErr].
  destruct (Pages _ _ _ _) as [results [err|]]; [discriminate|].
  destruct (convertGfuncsToFunctionSpec results) as [l|] eqn:E;
    [|discriminate].
  intros H. injection H as <-. exact (convert_LogicalName _ _ E).
Qed.

(** So the sort of line 419 leaves every discovered list in the order of
    the provider's response. *)
Lemma discovered_functions_not_reordered (f : GcloudGfuncFunctionDiscovery)
    (api : GoogleAPI) (secrets : list Secret)
    (newfunctions : list GfuncFunctionSpec) :
  DetectFunctionsOnce f api secrets = Returns (inl newfunctions) ->
  sort.Slice newfunctions lessLogicalName = newfunctions.
Proof.
  intros H. apply DetectFunctionsOnce_LogicalName in H.
  apply Slice_nothing_less. intros a b Ha Hb.
  rewrite List.Forall_forall in H. unfold lessLogicalName.
  rewrite (H a Ha), (H b Hb). reflexivity.
Qed.

(** C4 (the code departs from the claim). A provider lists function b
    before function a; the iteration succeeds and the list written to the
    Backend through the mutation callback holds b before a: the logical
    names the sort compares are all empty, so nothing is reordered. The
    same two functions listed as a, b are written as a, b, a different
    list. *)
Theorem C4_written_list_keeps_provider_order :
  detectAndUpdate Samples.discovery
      (Samples.providerListing
         [mkListFunctionsResponse [Samples.functionB; Samples.functionA]])
      [Samples.goodSecret] storeUpdate (Some Samples.gcloudUpstream) =
    Returns
      (Some (Samples.withFunctions
               [mkGfuncFunctionSpec "" "b" "https://l-p.cloudfunctions.net/b";
                mkGfuncFunctionSpec "" "a" "https://l-p.cloudfunctions.net/a"]),
       None)
  /\
  detectAndUpdate Samples.discovery
      (Samples.providerListing
         [mkListFunctionsResponse [Samples.functionA; Samples.functionB]])
      [Samples.goodSecret] storeUpdate (Some Samples.gcloudUpstream) =
    Returns
      (Some (Samples.withFunctions
               [mkGfuncFunctionSpec "" "a" "https://l-p.cloudfunctions.net/a";
                mkGfuncFunctionSpec "" "b" "https://l-p.cloudfunctions.net/b"]),
       None).
Proof. split; vm_compute; reflexivity. Qed.

(** ** Discovery: the loop *)

Section Loop.

Variable run : nat -> iteration.

(** [Sleep] returns nil after the delay, or [ctx.Err()] of a context that
    is done. *)
Hypothesis Sleep_returns_ctx_Err :
  forall i err, sleep_err (run i) = Some err -> exists c, err = ContextError c.

(** An error of the poll is absorbed when the context is not cancelled. *)
Lemma loopBody_absorbs (i : nat) :
  ctx_Err (run i) = None -> sleep_err (run i) = None ->
  loopBody (run i) = Continue.
Proof.
  intros Hctx Hsleep. unfold loopBody. rewrite Hctx, Hsleep.
  destruct (backoff_err (run i)); reflexivity.
Qed.

(** Cancellation seen after a failed [Backoff]. *)
Lemma loopBody_cancelled_in_backoff (i : nat) (err : error) (c : ctx_error) :
  backoff_err (run i) = Some err -> ctx_Err (run i) = Some c ->
  loopBody (run i) = Return (ContextError c).
Proof.
  intros Hb Hctx. unfold loopBody. rewrite Hb, Hctx. reflexivity.
Qed.

(** Cancellation seen by [Sleep]. *)
Lemma loopBody_cancelled_in_sleep (i : nat) (c : ctx_error) :
  backoff_err (run i) = None \/ ctx_Err (run i) = None ->
  sleep_err (run i) = Some (ContextError c) ->
  loopBody (run i) = Return (ContextError c).
Proof.
  intros Hb Hsleep. unfold loopBody. rewrite Hsleep.
  destruct Hb as [-> | ->]; [reflexivity|].
  destruct (backoff_err (run i)); reflexivity.
Qed.

Lemma loopBody_Return (i : nat) (err : error) :
  loopBody (run i) = Return err ->
  exists c, err = ContextError c /\
    ((backoff_err (run i) <> None /\ ctx_Err (run i) = Some c) \/
     sleep_err (run i) = Some (ContextError c)).
Proof.
  unfold loopBody. intros H.
  destruct (backoff_err (run i)) as [e|] eqn:Hb;
    [destruct (ctx_Err (run i)) as [c|] eqn:Hctx|].
  - injection H as <-. exists c. split; [reflexivity|]. left.
    split; [discriminate | reflexivity].
  - destruct (sleep_err (run i)) as [e'|] eqn:Hs; [|discriminate].
    injection H as <-. destruct (Sleep_returns_ctx_Err i e' Hs) as [c ->].
    exists c. split; [reflexivity | right; reflexivity].
  - destruct (sleep_err (run i)) as [e'|] eqn:Hs; [|discriminate].
    injection H as <-. destruct (Sleep_returns_ctx_Err i e' Hs) as [c ->].
    exists c. split; [reflexivity | right; reflexivity].
Qed.

Lemma DetectFunctions_returns_only_cancelled (fuel i : nat) (err : error) :
  DetectFunctions run i fuel = Some err ->
  exists c k, i <= k < i + fuel /\ err = ContextError c /\
    ((backoff_err (run k) <> None /\ ctx_Err (run k) = Some c) \/
     sleep_err (run k) = Some (ContextError c)).
Proof.
  revert i. induction fuel as [|fuel IH]; intros i H; simpl in H;
    [discriminate|].
  destruct (loopBody (run i)) as [|e] eqn:Hbody.
  - destruct (IH (S i) H) as (c & k & Hk & Herr & Hobs).
    exists c, k. repeat split; try assumption; lia.
  - injection H as <-.
    destruct (loopBody_Return i e Hbody) as (c & Herr & Hobs).
    exists c, i. repeat split; try assumption; lia.
Qed.

Lemma DetectFunctions_runs_while_not_cancelled (fuel i : nat) :
  (forall k, i <= k < i + fuel ->
             ctx_Err (run k) = None /\ sleep_err (run k) = None) ->
  DetectFunctions run i fuel = None.
Proof.
  revert i. induction fuel as [|fuel IH]; intros i H; simpl; [reflexivity|].
  destruct (H i) as [Hctx Hsleep]; [lia|].
  rewrite (loopBody_absorbs i Hctx Hsleep).
  apply IH. intros k Hk. apply H. lia.
Qed.

Lemma DetectFunctions_returns_when_cancelled (n fuel : nat) (c : ctx_error) :
  (forall k, k < n -> ctx_Err (run k) = None /\ sleep_err (run k) = None) ->
  loopBody (run n) = Return (ContextError c) ->
  n < fuel ->
  DetectFunctions run 0 fuel = Some (ContextError c).
Proof.
  intros Hbefore Hbody Hfuel.
  assert (forall i fuel', i <= n -> n < i + fuel' ->
            DetectFunctions run i fuel' = Some (ContextError c)) as Hgen.
  { intros i fuel'. revert i. induction fuel' as [|fuel' IH]; intros i Hi Hn;
      [lia|]. simpl.
    destruct (Nat.eq_dec i n) as [->|Hne].
    - rewrite Hbody. reflexivity.
    - destruct (Hbefore i) as [Hctx Hsleep]; [lia|].
      rewrite (loopBody_absorbs i Hctx Hsleep). apply IH; lia. }
  apply Hgen; lia.
Qed.

(** C6. The loop of [DetectFunctions] ends only by cancellation of its
    context. (1) A pass whose poll failed while the context is not
    cancelled goes on to the next pass. (2) As long as no pass sees the
    context cancelled the loop is still running, after any number of
    passes. (3) When the loop returns, it returns the context's error, seen
    either after a failed [Backoff] or by [Sleep]. (4) In the first pass
    that sees the context cancelled, after a failed [Backoff] or during
    [Sleep], the loop returns that error of the context, without a further
    pass. The returned error is the context's, not a provider's. *)
Theorem C6_DetectFunctions_ends_only_by_cancellation :
  (forall i err,
      backoff_err (run i) = Some err ->
      ctx_Err (run i) = None -> sleep_err (run i) = None ->
      loopBody (run i) = Continue) /\
  ((forall k, ctx_Err (run k) = None /\ sleep_err (run k) = None) ->
   forall fuel, DetectFunctions run 0 fuel = None) /\
  (forall fuel err,
      DetectFunctions run 0 fuel = Some err ->
      exists c k, k < fuel /\ err = ContextError c /\
        ((backoff_err (run k) <> None /\ ctx_Err (run k) = Some c) \/
         sleep_err (run k) = Some (ContextError c))) /\
  (forall n c,
      (forall k, k < n ->
                 ctx_Err (run k) = None /\ sleep_err (run k) = None) ->
      (backoff_err (run n) <> None /\ ctx_Err (run n) = Some c) \/
      ((backoff_err (run n) = None \/ ctx_Err (run n) = None) /\
       sleep_err (run n) = Some (ContextError c)) ->
      forall fuel, n < fuel ->
      DetectFunctions run 0 fuel = Some (ContextError c)).
Proof.
  split; [|split; [|split]].
  - intros i err _ Hctx Hsleep. exact (loopBody_absorbs i Hctx Hsleep).
  - intros Hnever fuel. apply DetectFunctions_runs_while_not_cancelled.
    intros k _. apply Hnever.
  - intros fuel err H.
    destruct (DetectFunctions_returns_only_cancelled fuel 0 err H)
      as (c & k & Hk & Herr & Hobs).
    exists c, k. repeat split; try assumption; lia.
  - intros n c Hbefore Hobs fuel Hfuel.
    apply (DetectFunctions_returns_when_cancelled n fuel c Hbefore);
      [|exact Hfuel].
    destruct Hobs as [[Hb Hctx]|[Hb Hsleep]].
    + destruct (backoff_err (run n)) as [e|] eqn:E; [|contradiction].
      exact (loopBody_cancelled_in_backoff n e c E Hctx).
    + exact (loopBody_cancelled_in_sleep n c Hb Hsleep).
Qed.

End Loop.

(** ** The listener filter *)

Lemma ProcessRoute_keeps_recorded (p : plugin) (params : Params)
    (in_ : Route) (out : envoy_Route) :
  recordedUpstreams (fst (fst (ProcessRoute p params in_ out))) =
  recordedUpstreams p.
Proof.
  unfold ProcessRoute, pluginutils.MarkPerFilterConfig,
    gfuncPerFilterConfig, transformPerFilterConfig.
  destruct (dest_DestinationSpec (route_Destination in_)) as [[[[gds|other]|]]|];
    simpl; try reflexivity.
  - destruct (GetUpstream (route_Destination in_)) as [upstream|]; simpl.
    + destruct (recorded p upstream) as [gfuncSpec|]; [|reflexivity].
      destruct (getFunction _ _) as [[msg|] [err|]]; try reflexivity;
        destruct (ResponseTransformation gds); reflexivity.
    + destruct (ResponseTransformation gds); reflexivity.
  - destruct (GetUpstream (route_Destination in_)); reflexivity.
  - destruct (GetUpstream (route_Destination in_)); reflexivity.
Qed.

(** After hooks that all returned, the map holds an entry exactly when it
    held one before or a gcloud Backend went through [ProcessUpstream]. *)
Lemma runHooks_recorded (params : Params) (calls : list Pass.call) :
  forall (p : plugin) (m : gmap ResourceRef gcloud_UpstreamSpec),
  recordedUpstreams p = Some m ->
  forallb Pass.returned (snd (Pass.runHooks p params calls)) = true ->
  exists m',
    recordedUpstreams (fst (Pass.runHooks p params calls)) = Some m' /\
    (m' <> ∅ <-> m <> ∅ \/ existsb Pass.processesGcloud calls = true).
Proof.
  induction calls as [|[in_ out|in_ out|listener] calls IH]; intros p m Hm Hret.
  - exists m. split; [exact Hm|]. simpl. split; [tauto|].
    intros [H|H]; [exact H | discriminate].
  - cbn [Pass.runHooks existsb Pass.processesGcloud] in *.
    destruct (up_UpstreamSpec in_) as [spec|] eqn:Hspec.
    + destruct (UpstreamType_of spec) as [[k|g|other]|] eqn:Htype.
      2:{ destruct (ProcessUpstream_records p params in_ out spec g m
                      Hspec Htype Hm) as (out' & err & Heq).
          rewrite Heq in *.
          destruct (Pass.runHooks _ params calls) as [q outputs] eqn:Hrun.
          specialize (IH {| recordedUpstreams :=
                                 Some (<[Ref (up_Metadata in_):=g]> m);
                               ctx := ctx p;
                               transformsAdded := transformsAdded p |}
                            _ eq_refl).
          rewrite Hrun in IH.
          destruct (IH Hret) as (m' & Hm' & Hiff).
          exists m'. split; [exact Hm'|]. simpl.
          split; [intros _; right; reflexivity|].
          intros _. apply Hiff. left. apply insert_non_empty. }
      all: rewrite (ProcessUpstream_other p params in_ out spec Hspec) in *
             by (rewrite Htype; intros g; discriminate);
           destruct (Pass.runHooks p params calls) as [q outputs] eqn:Hrun;
           specialize (IH p m Hm); rewrite Hrun in IH;
           destruct (IH Hret) as (m' & Hm' & Hiff);
           exists m'; split; [exact Hm' | exact Hiff].
    + unfold ProcessUpstream in Hret. rewrite Hspec in Hret. discriminate.
  - cbn [Pass.runHooks existsb Pass.processesGcloud orb] in *.
    pose proof (ProcessRoute_keeps_recorded p params in_ out) as Hkeep.
    destruct (ProcessRoute p params in_ out) as [[q out'] err].
    simpl in Hkeep. rewrite Hm in Hkeep.
    destruct (Pass.runHooks q params calls) as [q' outputs] eqn:Hrun.
    specialize (IH q m Hkeep). rewrite Hrun in IH.
    destruct (IH Hret) as (m' & Hm' & Hiff).
    exists m'. split; [exact Hm' | exact Hiff].
  - cbn [Pass.runHooks existsb Pass.processesGcloud orb] in *.
    destruct (HttpFilters p params listener) as [filters err].
    destruct (Pass.runHooks p params calls) as [q' outputs] eqn:Hrun.
    specialize (IH p m Hm). rewrite Hrun in IH.
    destruct (IH Hret) as (m' & Hm' & Hiff).
    exists m'. split; [exact Hm' | exact Hiff].
Qed.

(** C7. [HttpFilters] never returns an error and never more than one
    filter: it returns no filter when the plugin has no upstream recorded
    and exactly the gcloud function filter, at the stage [OutAuth], when it
    has at least one. For the state at the end of a pass ([Init], then hooks
    that all returned) this reads: no filter when no gcloud Backend went
    through [ProcessUpstream] in the pass, that one filter otherwise. *)
Theorem C7_HttpFilters_zero_or_one
    (p : plugin) (params : Params) (listener : HttpListener) :
  snd (HttpFilters p params listener) = None /\
  length (fst (HttpFilters p params listener)) <= 1 /\
  (len_recordedUpstreams p = 0 ->
   fst (HttpFilters p params listener) = []) /\
  (len_recordedUpstreams p <> 0 ->
   fst (HttpFilters p params listener) =
     [{| HttpFilter_Name := "io.solo.gcloud_gfunc"; Stage := OutAuth |}]) /\
  (forall p0 init calls,
      p = fst (Pass.runPass p0 init params calls) ->
      forallb Pass.returned (snd (Pass.runPass p0 init params calls)) = true ->
      fst (HttpFilters p params listener) =
        if existsb Pass.processesGcloud calls
        then [{| HttpFilter_Name := "io.solo.gcloud_gfunc"; Stage := OutAuth |}]
        else []).
Proof.
  unfold HttpFilters.
  destruct (Nat.eqb_spec (len_recordedUpstreams p) 0) as [E|NE]; simpl;
    (split; [reflexivity|]); (split; [lia|]);
    (split; [intros; first [reflexivity | contradiction]|]);
    (split; [intros; first [reflexivity | contradiction]|]);
    intros p0 init calls -> Hret;
    destruct (runHooks_recorded params calls (fst (Init p0 init)) ∅
                eq_refl Hret) as (m' & Hm' & Hiff);
    unfold len_recordedUpstreams, Pass.runPass in *; rewrite Hm' in *.
  - apply map_size_empty_iff in E.
    destruct (existsb Pass.processesGcloud calls); [|reflexivity].
    exfalso. apply (proj2 Hiff); [right; reflexivity | exact E].
  - apply map_size_non_empty_iff in NE. apply Hiff in NE.
    destruct NE as [NE | ->]; [contradiction | reflexivity].
Qed.

(** After [Init] alone there is no filter; after a pass that processed the
    kubernetes and the gcloud upstream (whose secret is missing) there is
    the gcloud filter. *)
Lemma C7_witness :
  fst (HttpFilters Samples.initialised (Samples.paramsWith [])
         (mkHttpListener [])) = [] /\
  fst (HttpFilters
         (fst (Pass.runPass (NewPlugin false) (mkInitParams 0)
                 (Samples.paramsWith [])
                 [Pass.CallProcessUpstream Samples.kubeUpstream
                    Samples.emptyCluster;
                  Pass.CallProcessUpstream Samples.gcloudUpstream
                    Samples.emptyCluster]))
         (Samples.paramsWith []) (mkHttpListener [])) =
    [{| HttpFilter_Name := "io.solo.gcloud_gfunc"; Stage := OutAuth |}].
Proof.
  split.
  - apply (C7_HttpFilters_zero_or_one Samples.initialised
             (Samples.paramsWith []) (mkHttpListener [])).
    reflexivity.
  - apply (proj2 (proj2 (proj2 (proj2 (C7_HttpFilters_zero_or_one _
             (Samples.paramsWith []) (mkHttpListener [])))))
             (NewPlugin false) (mkInitParams 0)
             [Pass.CallProcessUpstream Samples.kubeUpstream
                Samples.emptyCluster;
              Pass.CallProcessUpstream Samples.gcloudUpstream
                Samples.emptyCluster]);
      reflexivity.
Defined.

(** ** Witnesses of the loop *)

Lemma C6_witness :
  DetectFunctions Samples.cancelledRun 0 3 = Some (ContextError Canceled) /\
  forall fuel, DetectFunctions Samples.failingRun 0 fuel = None.
Proof.
  split.
  - refine (proj2 (proj2 (proj2
             (C6_DetectFunctions_ends_only_by_cancellation
                Samples.cancelledRun _))) 2 Canceled _ _ 3 _).
    + intros i err. unfold Samples.cancelledRun.
      destruct (Nat.ltb i 2); simpl; intros H; [discriminate|].
      injection H as <-. exists Canceled. reflexivity.
    + intros [|[|k]] Hk; [split; reflexivity | split; reflexivity | lia].
    + right. split; [left|]; reflexivity.
    + lia.
  - refine (proj1 (proj2
             (C6_DetectFunctions_ends_only_by_cancellation
                Samples.failingRun _)) _).
    + intros i err H. discriminate H.
    + intros k. split; reflexivity.
Defined.


(** ** Further witnesses *)

(** A plugin that still holds the upstream of an earlier pass holds none
    after [Init]. *)
Lemma C8_witness :
  recorded (fst (Init Samples.recordedPlugin (mkInitParams 1)))
           (Ref (up_Metadata Samples.gcloudUpstream)) = None.
Proof.
  apply (C8_Init_discards_recorded_upstreams Samples.recordedPlugin
           (mkInitParams 1)).
Defined.

(** A pass run on a fresh plugin and the same pass run on a plugin that
    holds the state of an earlier pass hand back the same outputs. *)
Lemma C9_witness :
  snd (Pass.runPass (NewPlugin true) (mkInitParams 0)
         (Samples.paramsWith [Samples.goodSecret])
         [Pass.CallProcessUpstream Samples.kubeUpstream Samples.emptyCluster;
          Pass.CallProcessRoute (Samples.routeTo "f1") Samples.emptyRoute;
          Pass.CallProcessUpstream Samples.gcloudUpstream Samples.emptyCluster;
          Pass.CallProcessRoute (Samples.routeTo "f1") Samples.emptyRoute;
          Pass.CallHttpFilters (mkHttpListener [])]) =
  snd (Pass.runPass Samples.recordedPlugin (mkInitParams 7)
         (Samples.paramsWith [Samples.goodSecret])
         [Pass.CallProcessUpstream Samples.kubeUpstream Samples.emptyCluster;
          Pass.CallProcessRoute (Samples.routeTo "f1") Samples.emptyRoute;
          Pass.CallProcessUpstream Samples.gcloudUpstream Samples.emptyCluster;
          Pass.CallProcessRoute (Samples.routeTo "f1") Samples.emptyRoute;
          Pass.CallHttpFilters (mkHttpListener [])]).
Proof.
  apply (C9_pass_outputs_deterministic (NewPlugin true) Samples.recordedPlugin
           (mkInitParams 0) (mkInitParams 7)).
Defined.

(** * Further properties of the plugin *)

(** ** [ProcessUpstream] on a gcloud Backend *)

Lemma secretErrs_None_iff (accessKey jsonKey : string) :
  secretErrs accessKey jsonKey = None <->
  (accessKey <> "" /\ utf8.Valid accessKey = true) /\
  (jsonKey <> "" /\ utf8.Valid jsonKey = true).
Proof.
  unfold secretErrs.
  destruct (String.eqb_spec accessKey "") as [Ea|Ea];
    destruct (utf8.Valid accessKey) eqn:Va;
    destruct (String.eqb_spec jsonKey "") as [Ej|Ej];
    destruct (utf8.Valid jsonKey) eqn:Vj; simpl;
    split; try discriminate; try tauto;
    intros [[H1 H2] [H3 H4]]; try contradiction; try discriminate.
Qed.

(** The two ways [ProcessUpstream] returns for a gcloud Backend. *)
Lemma ProcessUpstream_gcloud (p : plugin) (params : Params) (in_ : Upstream)
    (out : Cluster) (spec : UpstreamSpec) (g : gcloud_UpstreamSpec)
    (m : gmap ResourceRef gcloud_UpstreamSpec) :
  up_UpstreamSpec in_ = Some spec ->
  UpstreamType_of spec = Some (UpstreamSpec_Gcloud g) ->
  recordedUpstreams p = Some m ->
  let p' := {| recordedUpstreams := Some (<[Ref (up_Metadata in_) := g]> m);
               ctx := ctx p;
               transformsAdded := transformsAdded p |} in
  (exists err,
      ProcessUpstream p params in_ out = Returns (p', routed g out, Some err)
      /\ forall gs, ~ usable params g gs) \/
  (exists gs,
      usable params g gs /\
      ProcessUpstream p params in_ out =
        Returns (p',
                 {| ClusterDiscoveryType := Some Cluster_LOGICAL_DNS;
                    DnsLookupFamily := Cluster_V4_ONLY;
                    LoadAssignment := Some (getGfuncHostname g, 443%N);
                    TlsContext := Some {| Sni := getGfuncHostname g |};
                    ExtensionProtocolOptions :=
                      <[filterName :=
                          {| pe_Host := getGfuncHostname g;
                             pe_Region := Region g;
                             pe_AccessKey := AccessKey gs;
                             pe_JsonKey := JsonKey gs |}]>
                        (ExtensionProtocolOptions out) |},
                 None)).
Proof.
  intros Hspec Htype Hmap p'. unfold ProcessUpstream.
  rewrite Hspec, Htype, Hmap. cbn [Strings].
  unfold usable.
  destruct (Find _ _ _) as [secret|err] eqn:Hfind.
  - destruct (Kind secret) as [[gs|other]|] eqn:Hkind.
    + destruct (secretErrs (AccessKey gs) (JsonKey gs)) as [errs|] eqn:Herrs.
      * left. eexists. split; [reflexivity|].
        intros gs' [(secret' & Hs' & Hk') Hgood].
        injection Hs' as <-. rewrite Hkind in Hk'. injection Hk' as <-.
        apply secretErrs_None_iff in Hgood. congruence.
      * right. exists gs. split; [|reflexivity].
        apply secretErrs_None_iff in Herrs.
        split; [exists secret; split; [reflexivity | exact Hkind] | exact Herrs].
    + left. eexists. split; [reflexivity|].
      intros gs' [(secret' & Hs' & Hk') _].
      injection Hs' as <-. rewrite Hkind in Hk'. discriminate.
    + left. eexists. split; [reflexivity|].
      intros gs' [(secret' & Hs' & Hk') _].
      injection Hs' as <-. rewrite Hkind in Hk'. discriminate.
  - left. eexists. split; [reflexivity|].
    intros gs' [(secret' & Hs' & _) _]. discriminate.
Qed.

(** X1. For a gcloud Backend and an initialised plugin, [ProcessUpstream]
    returns without error exactly when the Snapshot holds, under the
    Backend's secret reference, a gcloud secret whose access key and JSON
    key are both non-empty valid UTF-8. *)
Theorem X1_ProcessUpstream_succeeds_iff_secret_usable
    (p : plugin) (params : Params) (in_ : Upstream) (out : Cluster)
    (spec : UpstreamSpec) (g : gcloud_UpstreamSpec)
    (m : gmap ResourceRef gcloud_UpstreamSpec) :
  up_UpstreamSpec in_ = Some spec ->
  UpstreamType_of spec = Some (UpstreamSpec_Gcloud g) ->
  recordedUpstreams p = Some m ->
  (exists p' out', ProcessUpstream p params in_ out = Returns (p', out', None))
  <-> exists gs, usable params g gs.
Proof.
  intros Hspec Htype Hmap.
  destruct (ProcessUpstream_gcloud p params in_ out spec g m Hspec Htype Hmap)
    as [(err & Heq & Hnot)|(gs & Hgood & Heq)]; rewrite Heq.
  - split.
    + intros (p' & out' & H). discriminate H.
    + intros (gs & Hgood). exfalso. exact (Hnot gs Hgood).
  - split; [intros _; exists gs; exact Hgood|].
    intros _. eexists _, _. reflexivity.
Qed.

Lemma X1_witness :
  exists p' out',
    ProcessUpstream Samples.initialised
        (Samples.paramsWith [Samples.goodSecret])
        Samples.gcloudUpstream Samples.emptyCluster = Returns (p', out', None).
Proof.
  apply (X1_ProcessUpstream_succeeds_iff_secret_usable Samples.initialised
           (Samples.paramsWith [Samples.goodSecret]) Samples.gcloudUpstream
           Samples.emptyCluster
           (mkUpstreamSpec (Some (UpstreamSpec_Gcloud Samples.gcloudSpec)))
           Samples.gcloudSpec ∅);
    [reflexivity | reflexivity | reflexivity |].
  exists (mkGcloudSecret "key-id" "{}"). split; [|split].
  - exists Samples.goodSecret. split; reflexivity.
  - split; [discriminate | vm_compute; reflexivity].
  - split; [discriminate | vm_compute; reflexivity].
Defined.

(** X2. The credentials reach the cluster only when they are usable: when
    [ProcessUpstream] returns an error for a gcloud Backend the protocol
    extension options of the cluster are as they were; when it returns no
    error they hold, under the name of the gcloud filter, the host name,
    the region and the two keys of the secret. *)
Theorem X2_ProcessUpstream_protocol_options
    (p : plugin) (params : Params) (in_ : Upstream) (out : Cluster)
    (spec : UpstreamSpec) (g : gcloud_UpstreamSpec)
    (m : gmap ResourceRef gcloud_UpstreamSpec)
    (p' : plugin) (out' : Cluster) (err : option error) :
  up_UpstreamSpec in_ = Some spec ->
  UpstreamType_of spec = Some (UpstreamSpec_Gcloud g) ->
  recordedUpstreams p = Some m ->
  ProcessUpstream p params in_ out = Returns (p', out', err) ->
  match err with
  | Some _ => ExtensionProtocolOptions out' = ExtensionProtocolOptions out
  | None =>
    exists gs,
      usable params g gs /\
      ExtensionProtocolOptions out' =
        <["io.solo.gcloud_gfunc" :=
            {| pe_Host := Region g +:+ "-" +:+ ProjectId g
                          +:+ ".cloudfunctions.net";
               pe_Region := Region g;
               pe_AccessKey := AccessKey gs;
               pe_JsonKey := JsonKey gs |}]> (ExtensionProtocolOptions out)
  end.
Proof.
  intros Hspec Htype Hmap Hrun.
  destruct (ProcessUpstream_gcloud p params in_ out spec g m Hspec Htype Hmap)
    as [(e & Heq & Hnot)|(gs & Hgood & Heq)];
    rewrite Heq in Hrun; injection Hrun as <- <- <-.
  - reflexivity.
  - exists gs. split; [exact Hgood | reflexivity].
Qed.

Lemma X2_witness :
  ExtensionProtocolOptions
    (mkCluster (Some Cluster_LOGICAL_DNS) Cluster_V4_ONLY
       (Some ("l-p.cloudfunctions.net", 443%N))
       (Some (mkUpstreamTlsContext "l-p.cloudfunctions.net")) ∅) =
  ExtensionProtocolOptions Samples.emptyCluster.
Proof.
  refine (X2_ProcessUpstream_protocol_options Samples.initialised
            (Samples.paramsWith [Samples.badSecret]) Samples.gcloudUpstream
            Samples.emptyCluster
            (mkUpstreamSpec (Some (UpstreamSpec_Gcloud Samples.gcloudSpec)))
            Samples.gcloudSpec ∅ _ _
            (Some (MultiError
                     [Errorf "access_key is not a valid string" [];
                      Errorf "json_key is not a valid string" []]))
            _ _ _ _); reflexivity.
Defined.

(** X3. Whenever [ProcessUpstream] returns for a gcloud Backend, with or
    without error, the cluster is set up for the function host: logical
    DNS, IPv4 only, the single endpoint Region-ProjectId.cloudfunctions.net
    on port 443, and TLS with that same host name as SNI. *)
Theorem X3_ProcessUpstream_routes_to_function_host
    (p : plugin) (params : Params) (in_ : Upstream) (out : Cluster)
    (spec : UpstreamSpec) (g : gcloud_UpstreamSpec)
    (m : gmap ResourceRef gcloud_UpstreamSpec)
    (p' : plugin) (out' : Cluster) (err : option error) :
  up_UpstreamSpec in_ = Some spec ->
  UpstreamType_of spec = Some (UpstreamSpec_Gcloud g) ->
  recordedUpstreams p = Some m ->
  ProcessUpstream p params in_ out = Returns (p', out', err) ->
  ClusterDiscoveryType out' = Some Cluster_LOGICAL_DNS /\
  DnsLookupFamily out' = Cluster_V4_ONLY /\
  LoadAssignment out' =
    Some (Region g +:+ "-" +:+ ProjectId g +:+ ".cloudfunctions.net", 443%N) /\
  TlsContext out' =
    Some {| Sni := Region g +:+ "-" +:+ ProjectId g
                   +:+ ".cloudfunctions.net" |}.
Proof.
  intros Hspec Htype Hmap Hrun.
  destruct (ProcessUpstream_gcloud p params in_ out spec g m Hspec Htype Hmap)
    as [(e & Heq & Hnot)|(gs & Hgood & Heq)];
    rewrite Heq in Hrun; injection Hrun as <- <- <-; repeat split.
Qed.

Lemma X3_witness :
  ClusterDiscoveryType
    (mkCluster (Some Cluster_LOGICAL_DNS) Cluster_V4_ONLY
       (Some ("l-p.cloudfunctions.net", 443%N))
       (Some (mkUpstreamTlsContext "l-p.cloudfunctions.net")) ∅) =
    Some Cluster_LOGICAL_DNS /\
  DnsLookupFamily
    (mkCluster (Some Cluster_LOGICAL_DNS) Cluster_V4_ONLY
       (Some ("l-p.cloudfunctions.net", 443%N))
       (Some (mkUpstreamTlsContext "l-p.cloudfunctions.net")) ∅) =
    Cluster_V4_ONLY /\
  LoadAssignment
    (mkCluster (Some Cluster_LOGICAL_DNS) Cluster_V4_ONLY
       (Some ("l-p.cloudfunctions.net", 443%N))
       (Some (mkUpstreamTlsContext "l-p.cloudfunctions.net")) ∅) =
    Some ("l" +:+ "-" +:+ "p" +:+ ".cloudfunctions.net", 443%N) /\
  TlsContext
    (mkCluster (Some Cluster_LOGICAL_DNS) Cluster_V4_ONLY
       (Some ("l-p.cloudfunctions.net", 443%N))
       (Some (mkUpstreamTlsContext "l-p.cloudfunctions.net")) ∅) =
    Some {| Sni := "l" +:+ "-" +:+ "p" +:+ ".cloudfunctions.net" |}.
Proof.
  refine (X3_ProcessUpstream_routes_to_function_host Samples.initialised
            (Samples.paramsWith []) Samples.gcloudUpstream
            Samples.emptyCluster
            (mkUpstreamSpec (Some (UpstreamSpec_Gcloud Samples.gcloudSpec)))
            Samples.gcloudSpec ∅ _ _
            (Some (Wrapf (NotFound "gloo-system" "gcloud-creds")
                     "retrieving gcloud secret" []))
            _ _ _ _); reflexivity.
Defined.

(** X4. [ProcessUpstream] on a gcloud Backend binds the Backend's
    reference to its spec, replacing what was bound to it, and leaves every
    other reference, the context and the transforms flag of the plugin as
    they were. *)
Theorem X4_ProcessUpstream_records_only_its_reference
    (p : plugin) (params : Params) (in_ : Upstream) (out : Cluster)
    (spec : UpstreamSpec) (g : gcloud_UpstreamSpec)
    (m : gmap ResourceRef gcloud_UpstreamSpec)
    (p' : plugin) (out' : Cluster) (err : option error) :
  up_UpstreamSpec in_ = Some spec ->
  UpstreamType_of spec = Some (UpstreamSpec_Gcloud g) ->
  recordedUpstreams p = Some m ->
  ProcessUpstream p params in_ out = Returns (p', out', err) ->
  recorded p' (Ref (up_Metadata in_)) = Some g /\
  (forall ref, ref <> Ref (up_Metadata in_) ->
               recorded p' ref = recorded p ref) /\
  ctx p' = ctx p /\
  transformsAdded p' = transformsAdded p.
Proof.
  intros Hspec Htype Hmap Hrun.
  destruct (ProcessUpstream_records p params in_ out spec g m Hspec Htype Hmap)
    as (out0 & err0 & Heq).
  rewrite Heq in Hrun. injection Hrun as <- _ _.
  unfold recorded. rewrite Hmap. simpl. repeat split.
  - apply lookup_insert_eq.
  - intros ref Hne. apply lookup_insert_ne. congruence.
Qed.

Lemma X4_witness :
  recorded
    (mkPlugin
       (Some (<[Ref (up_Metadata Samples.gcloudUpstream) :=
                  Samples.gcloudSpec]>
                {[ mkRef "other" "gloo-system" :=
                     mkGcloudUpstreamSpec "r" "q" Samples.secretRef [] ]}))
       (Some 0%nat) false)
    (mkRef "other" "gloo-system") =
  Some (mkGcloudUpstreamSpec "r" "q" Samples.secretRef []).
Proof.
  refine (eq_trans
            (proj1 (proj2
               (X4_ProcessUpstream_records_only_its_reference
                  (mkPlugin
                     (Some {[ mkRef "other" "gloo-system" :=
                                mkGcloudUpstreamSpec "r" "q"
                                  Samples.secretRef [] ]})
                     (Some 0%nat) false)
                  (Samples.paramsWith []) Samples.gcloudUpstream
                  Samples.emptyCluster
                  (mkUpstreamSpec
                     (Some (UpstreamSpec_Gcloud Samples.gcloudSpec)))
                  Samples.gcloudSpec _ _ _ _ _ _ _ _))
               (mkRef "other" "gloo-system") _) _).
  - reflexivity.
  - reflexivity.
  - reflexivity.
  - reflexivity.
  - discriminate.
  - reflexivity.
Defined.

(** ** [ProcessRoute] *)

(** X5. A route whose destination has no DestinationSpec, or one of
    another provider (or with no variant set), is not the plugin's:
    [ProcessRoute] returns no error and hands back the route and the plugin
    state as it received them. *)
Theorem X5_ProcessRoute_not_ours
    (p : plugin) (params : Params) (in_ : Route) (out : envoy_Route) :
  (dest_DestinationSpec (route_Destination in_) = None \/
   exists ds,
     dest_DestinationSpec (route_Destination in_) = Some ds /\
     forall gds, DestinationType_of ds <> Some (DestinationSpec_Gcloud gds)) ->
  ProcessRoute p params in_ out = (p, out, None).
Proof.
  unfold ProcessRoute, pluginutils.MarkPerFilterConfig,
    gfuncPerFilterConfig, transformPerFilterConfig.
  intros [Hnone|(ds & Hds & Hother)].
  - rewrite Hnone. reflexivity.
  - rewrite Hds.
    destruct (DestinationType_of ds) as [[gds|other]|] eqn:E.
    + exfalso. exact (Hother gds eq_refl).
    + destruct (GetUpstream (route_Destination in_)); reflexivity.
    + destruct (GetUpstream (route_Destination in_)); reflexivity.
Qed.

Lemma X5_witness :
  ProcessRoute Samples.recordedPlugin (Samples.paramsWith [])
      (mkRoute "/"
         (mkDestination (Some (Ref (up_Metadata Samples.gcloudUpstream)))
            (Some (mkDestinationSpec (Some (DestinationSpec_Other "aws"))))))
      Samples.emptyRoute =
    (Samples.recordedPlugin, Samples.emptyRoute, None).
Proof.
  apply X5_ProcessRoute_not_ours. right.
  exists (mkDestinationSpec (Some (DestinationSpec_Other "aws"))).
  split; [reflexivity|]. intros gds. discriminate.
Defined.

(** X6. A route with a gcloud DestinationSpec to a Backend the plugin has
    not recorded (a Backend of another provider, one that was never
    processed, or any Backend when the plugin was never initialised) fails
    with the error "%v is not an GCLOUD upstream" naming the Backend's
    reference; the route and the plugin state are not changed. *)
Theorem X6_ProcessRoute_unrecorded_upstream
    (p : plugin) (params : Params) (in_ : Route) (out : envoy_Route)
    (upstream : ResourceRef) (gds : gcloud_DestinationSpec) :
  GetUpstream (route_Destination in_) = Some upstream ->
  dest_DestinationSpec (route_Destination in_) =
    Some (mkDestinationSpec (Some (DestinationSpec_Gcloud gds))) ->
  recorded p upstream = None ->
  ProcessRoute p params in_ out =
    (p, out, Some (Errorf "%v is not an GCLOUD upstream" [ArgRef upstream])).
Proof.
  intros Hup Hspec Hrec.
  unfold ProcessRoute, pluginutils.MarkPerFilterConfig, gfuncPerFilterConfig.
  rewrite Hup, Hspec. simpl. rewrite Hrec. reflexivity.
Qed.

(** The kubernetes upstream went through [ProcessUpstream]; a route that
    asks for a gcloud function of it fails. *)
Lemma X6_witness :
  ProcessRoute
      (fst (Pass.runPass (NewPlugin false) (mkInitParams 0)
              (Samples.paramsWith [])
              [Pass.CallProcessUpstream Samples.kubeUpstream
                 Samples.emptyCluster]))
      (Samples.paramsWith [])
      (mkRoute "/"
         (mkDestination (Some (Ref (up_Metadata Samples.kubeUpstream)))
            (Some (mkDestinationSpec
               (Some (DestinationSpec_Gcloud
                  (mkGcloudDestinationSpec "f1" true)))))))
      Samples.emptyRoute =
    (fst (Pass.runPass (NewPlugin false) (mkInitParams 0)
            (Samples.paramsWith [])
            [Pass.CallProcessUpstream Samples.kubeUpstream
               Samples.emptyCluster]),
     Samples.emptyRoute,
     Some (Errorf "%v is not an GCLOUD upstream"
             [ArgRef (mkRef "us" "ns")])).
Proof.
  apply (X6_ProcessRoute_unrecorded_upstream _ (Samples.paramsWith [])
           _ Samples.emptyRoute (mkRef "us" "ns")
           (mkGcloudDestinationSpec "f1" true));
    reflexivity.
Defined.

(** The state and the route after the two callbacks, case by case. *)
Lemma ProcessRoute_cases (p : plugin) (params : Params) (in_ : Route)
    (out : envoy_Route) :
  (exists err, ProcessRoute p params in_ out = (p, out, Some err)) \/
  ProcessRoute p params in_ out = (p, out, None) \/
  (exists gds,
      dest_DestinationSpec (route_Destination in_) =
        Some (mkDestinationSpec (Some (DestinationSpec_Gcloud gds))) /\
      let out1 :=
        match GetUpstream (route_Destination in_) with
        | None => out
        | Some upstream =>
          match recorded p upstream with
          | None => out
          | Some gfuncSpec =>
            match getFunction (dest_LogicalName gds)
                              (GfuncFunctions gfuncSpec) with
            | (Some msg, _) =>
              {| PerFilterConfig := <[filterName := msg]> (PerFilterConfig out) |}
            | (None, _) => out
            end
          end
        end in
      ProcessRoute p params in_ out =
        if ResponseTransformation gds
        then ({| recordedUpstreams := recordedUpstreams p;
                 ctx := ctx p;
                 transformsAdded := true |},
              {| PerFilterConfig :=
                   <[transformation_FilterName :=
                       Msg_RouteTransformations responseTemplate]>
                     (PerFilterConfig out1) |},
              None)
        else (p, out1, None)).
Proof.
  unfold ProcessRoute, pluginutils.MarkPerFilterConfig,
    gfuncPerFilterConfig, transformPerFilterConfig.
  destruct (dest_DestinationSpec (route_Destination in_))
    as [[[[gds|other]|]]|] eqn:Hds; simpl.
  - destruct (GetUpstream (route_Destination in_)) as [upstream|]; simpl.
    + destruct (recorded p upstream) as [gfuncSpec|];
        [|left; eexists; reflexivity].
      destruct (getFunction _ _) as [[msg|] [err|]] eqn:Hget;
        try (left; eexists; reflexivity);
        right; right; exists gds; (split; [reflexivity|]);
        cbv zeta; rewrite Hget;
        destruct (ResponseTransformation gds); reflexivity.
    + right; right; exists gds; (split; [reflexivity|]).
      destruct (ResponseTransformation gds); reflexivity.
  - right; left. destruct (GetUpstream (route_Destination in_)); reflexivity.
  - right; left. destruct (GetUpstream (route_Destination in_)); reflexivity.
  - right; left. reflexivity.
Qed.

(** X7. [ProcessRoute] changes nothing when it fails: if it returns an
    error, the route and the plugin state it hands back are the ones it
    was given. *)
Theorem X7_ProcessRoute_error_changes_nothing
    (p : plugin) (params : Params) (in_ : Route) (out : envoy_Route)
    (p' : plugin) (out' : envoy_Route) (err : error) :
  ProcessRoute p params in_ out = (p', out', Some err) ->
  p' = p /\ out' = out.
Proof.
  intros H.
  destruct (ProcessRoute_cases p params in_ out)
    as [(e & Heq)|[Heq|(gds & _ & Heq)]]; rewrite Heq in H.
  - injection H as <- <- _. split; reflexivity.
  - discriminate H.
  - destruct (ResponseTransformation gds); discriminate H.
Qed.

Lemma X7_witness :
  Samples.recordedPlugin = Samples.recordedPlugin /\
  Samples.emptyRoute = Samples.emptyRoute.
Proof.
  apply (X7_ProcessRoute_error_changes_nothing Samples.recordedPlugin
           (Samples.paramsWith [])
           (mkRoute "/"
              (mkDestination (Some (Ref (up_Metadata Samples.gcloudUpstream)))
                 (Some (mkDestinationSpec
                    (Some (DestinationSpec_Gcloud
                       (mkGcloudDestinationSpec "f2" true)))))))
           Samples.emptyRoute _ _
           (Errorf "unknown function %v" [ArgString "f2"])).
  reflexivity.
Defined.

(** X8. [ProcessRoute] writes only under its two filter names: the
    configuration of every filter other than the gcloud filter and the
    transformation filter is the same before and after, and so are the
    recorded upstreams and the context of the plugin. *)
Theorem X8_ProcessRoute_touches_only_its_filters
    (p : plugin) (params : Params) (in_ : Route) (out : envoy_Route)
    (name : string) :
  name <> "io.solo.gcloud_gfunc" ->
  name <> "io.solo.transformation" ->
  PerFilterConfig (snd (fst (ProcessRoute p params in_ out))) !! name =
    PerFilterConfig out !! name /\
  recordedUpstreams (fst (fst (ProcessRoute p params in_ out))) =
    recordedUpstreams p /\
  ctx (fst (fst (ProcessRoute p params in_ out))) = ctx p.
Proof.
  intros Hg Ht.
  destruct (ProcessRoute_cases p params in_ out)
    as [(e & Heq)|[Heq|(gds & _ & Heq)]]; rewrite Heq;
    try (repeat split; reflexivity).
  assert (forall msg,
            PerFilterConfig
              {| PerFilterConfig := <[filterName := msg]> (PerFilterConfig out) |}
              !! name = PerFilterConfig out !! name) as Hins.
  { intros msg. simpl. apply lookup_insert_ne. unfold filterName.
    congruence. }
  destruct (ResponseTransformation gds); simpl;
    (split; [|split; reflexivity]);
    try (rewrite lookup_insert_ne by (unfold transformation_FilterName;
                                      congruence));
    destruct (GetUpstream (route_Destination in_)) as [upstream|];
    try reflexivity;
    destruct (recorded p upstream) as [gfuncSpec|]; try reflexivity;
    destruct (getFunction _ _) as [[msg|] ?]; try reflexivity; apply Hins.
Qed.

Lemma X8_witness :
  PerFilterConfig
    (snd (fst (ProcessRoute Samples.recordedPlugin (Samples.paramsWith [])
                 (mkRoute "/"
                    (mkDestination
                       (Some (Ref (up_Metadata Samples.gcloudUpstream)))
                       (Some (mkDestinationSpec
                          (Some (DestinationSpec_Gcloud
                             (mkGcloudDestinationSpec "f1" true)))))))
                 (mkEnvoyRoute
                    {[ "envoy.cors" :=
                         Msg_GfuncPerRoute (mkGfuncPerRoute "n" "u") ]}))))
    !! "envoy.cors" =
  Some (Msg_GfuncPerRoute (mkGfuncPerRoute "n" "u")).
Proof.
  refine (eq_trans
            (proj1 (X8_ProcessRoute_touches_only_its_filters
                      Samples.recordedPlugin (Samples.paramsWith []) _ _
                      "envoy.cors" _ _)) _).
  - discriminate.
  - discriminate.
  - reflexivity.
Defined.

(** X9. For a gcloud destination on which [ProcessRoute] returns no
    error: when the destination asks for the response transformation, the
    route gets, under the name of the transformation filter, the template
    with body {{body}} and header content-type text/html, and the
    transforms flag of the plugin is set; when it does not ask for it, the
    transformation configuration of the route and the flag stay as they
    were. This does not depend on the destination naming a Backend. *)
Theorem X9_ProcessRoute_response_transformation
    (p : plugin) (params : Params) (in_ : Route) (out : envoy_Route)
    (gds : gcloud_DestinationSpec) (p' : plugin) (out' : envoy_Route) :
  dest_DestinationSpec (route_Destination in_) =
    Some (mkDestinationSpec (Some (DestinationSpec_Gcloud gds))) ->
  ProcessRoute p params in_ out = (p', out', None) ->
  if ResponseTransformation gds
  then PerFilterConfig out' !! "io.solo.transformation" =
         Some (Msg_RouteTransformations
                 {| Body := "{{body}}";
                    Headers := {[ "content-type" := "text/html" ]} |}) /\
       transformsAdded p' = true
  else PerFilterConfig out' !! "io.solo.transformation" =
         PerFilterConfig out !! "io.solo.transformation" /\
       transformsAdded p' = transformsAdded p.
Proof.
  intros Hds. unfold ProcessRoute, pluginutils.MarkPerFilterConfig,
    gfuncPerFilterConfig, transformPerFilterConfig.
  rewrite Hds. simpl.
  destruct (GetUpstream (route_Destination in_)) as [upstream|]; simpl.
  - destruct (recorded p upstream) as [gfuncSpec|]; [|discriminate].
    destruct (getFunction _ _) as [[msg|] [err|]]; try discriminate;
      destruct (ResponseTransformation gds); simpl; intros H;
      injection H as <- <-; simpl; (split; [|reflexivity]);
      first [ apply lookup_insert_eq
            | apply lookup_insert_ne; discriminate
            | reflexivity ].
  - destruct (ResponseTransformation gds); simpl; intros H;
      injection H as <- <-; simpl; (split; [|reflexivity]);
      first [ apply lookup_insert_eq | reflexivity ].
Qed.

(** A destination that names no Backend still gets the transformation. *)
Lemma X9_witness :
  PerFilterConfig
    (mkEnvoyRoute
       {[ "io.solo.transformation" :=
            Msg_RouteTransformations responseTemplate ]})
    !! "io.solo.transformation" =
    Some (Msg_RouteTransformations
            {| Body := "{{body}}";
               Headers := {[ "content-type" := "text/html" ]} |}) /\
  transformsAdded (mkPlugin (Some ∅) (Some 0%nat) true) = true.
Proof.
  refine (X9_ProcessRoute_response_transformation Samples.initialised
            (Samples.paramsWith [])
            (mkRoute "/"
               (mkDestination None
                  (Some (mkDestinationSpec
                     (Some (DestinationSpec_Gcloud
                        (mkGcloudDestinationSpec "f1" true)))))))
            Samples.emptyRoute (mkGcloudDestinationSpec "f1" true)
            _ _ _ _); reflexivity.
Defined.

(** ** The plugin state along a pass *)

Lemma ProcessUpstream_keeps_flag (p : plugin) (params : Params)
    (in_ : Upstream) (out : Cluster) (p' : plugin) (out' : Cluster)
    (err : option error) :
  ProcessUpstream p params in_ out = Returns (p', out', err) ->
  transformsAdded p' = transformsAdded p.
Proof.
  unfold ProcessUpstream.
  destruct (up_UpstreamSpec in_) as [spec|]; [|discriminate].
  destruct (UpstreamType_of spec) as [[k|g|other]|];
    try (intros H; injection H as <- _ _; reflexivity).
  destruct (recordedUpstreams p) as [m|]; [|discriminate]. cbn [Strings].
  destruct (Find _ _ _) as [secret|e];
    [|intros H; injection H as <- _ _; reflexivity].
  destruct (Kind secret) as [[gs|other]|];
    try (intros H; injection H as <- _ _; reflexivity).
  destruct (secretErrs _ _); intros H; injection H as <- _ _; reflexivity.
Qed.

Lemma ProcessRoute_keeps_flag_set (p : plugin) (params : Params)
    (in_ : Route) (out : envoy_Route) :
  transformsAdded p = true ->
  transformsAdded (fst (fst (ProcessRoute p params in_ out))) = true.
Proof.
  intros Hp.
  destruct (ProcessRoute_cases p params in_ out)
    as [(e & Heq)|[Heq|(gds & _ & Heq)]]; rewrite Heq; try exact Hp.
  destruct (ResponseTransformation gds); [reflexivity | exact Hp].
Qed.

Lemma runHooks_keeps_flag_set (params : Params) (calls : list Pass.call) :
  forall p, transformsAdded p = true ->
  transformsAdded (fst (Pass.runHooks p params calls)) = true.
Proof.
  induction calls as [|[in_ out|in_ out|listener] calls IH]; intros p Hp;
    cbn [Pass.runHooks].
  - exact Hp.
  - destruct (ProcessUpstream p params in_ out) as [[[q out'] err]|msg] eqn:E;
      [|exact Hp].
    apply ProcessUpstream_keeps_flag in E.
    specialize (IH q). destruct (Pass.runHooks q params calls) as [q' outputs].
    apply IH. congruence.
  - pose proof (ProcessRoute_keeps_flag_set p params in_ out Hp) as Hq.
    destruct (ProcessRoute p params in_ out) as [[q out'] err]. simpl in Hq.
    specialize (IH q Hq).
    destruct (Pass.runHooks q params calls) as [q' outputs]. exact IH.
  - destruct (HttpFilters p params listener) as [filters err].
    specialize (IH p Hp).
    destruct (Pass.runHooks p params calls) as [q' outputs]. exact IH.
Qed.

(** X10. The transforms flag is never cleared: once it is set, it is still
    set after [Init] and any sequence of hook calls, so a flag set in one
    pass is carried into every later pass. *)
Theorem X10_transformsAdded_is_never_cleared
    (p : plugin) (init : InitParams) (params : Params)
    (calls : list Pass.call) :
  transformsAdded p = true ->
  transformsAdded (fst (Pass.runPass p init params calls)) = true.
Proof.
  intros Hp. unfold Pass.runPass. apply runHooks_keeps_flag_set. exact Hp.
Qed.

(** A flag set by an earlier pass survives a pass without any route. *)
Lemma X10_witness :
  transformsAdded
    (fst (Pass.runPass (NewPlugin true) (mkInitParams 1)
            (Samples.paramsWith [Samples.goodSecret])
            [Pass.CallProcessUpstream Samples.gcloudUpstream
               Samples.emptyCluster;
             Pass.CallHttpFilters (mkHttpListener [])])) = true.
Proof.
  apply (X10_transformsAdded_is_never_cleared (NewPlugin true)
           (mkInitParams 1) (Samples.paramsWith [Samples.goodSecret])).
  reflexivity.
Defined.



Lemma runHooks_lastGcloud (params : Params) (calls : list Pass.call)
    (ref : ResourceRef) :
  forall (p : plugin) (m : gmap ResourceRef gcloud_UpstreamSpec),
  recordedUpstreams p = Some m ->
  forallb Pass.returned (snd (Pass.runHooks p params calls)) = true ->
  recorded (fst (Pass.runHooks p params calls)) ref =
    Recorded.lastGcloud ref calls (m !! ref).
Proof.
  induction calls as [|[in_ out|in_ out|listener] calls IH]; intros p m Hm Hret.
  - simpl. unfold recorded. rewrite Hm. reflexivity.
  - cbn [Pass.runHooks Recorded.lastGcloud Recorded.gcloudFor] in *.
    destruct (up_UpstreamSpec in_) as [spec|] eqn:Hspec.
    + destruct (UpstreamType_of spec) as [[k|g|other]|] eqn:Htype.
      2:{ destruct (ProcessUpstream_records p params in_ out spec g m
                      Hspec Htype Hm) as (out' & err & Heq).
          rewrite Heq in *.
          specialize (IH {| recordedUpstreams :=
                              Some (<[Ref (up_Metadata in_):=g]> m);
                            ctx := ctx p;
                            transformsAdded := transformsAdded p |}
                         _ eq_refl).
          destruct (Pass.runHooks _ params calls) as [q outputs] eqn:Hrun.
          simpl in Hret, IH |- *. rewrite (IH Hret).
          destruct (decide (Ref (up_Metadata in_) = ref)) as [<-|Hne].
          - rewrite lookup_insert_eq. reflexivity.
          - rewrite lookup_insert_ne by exact Hne.
            destruct (m !! ref); reflexivity. }
      all: rewrite (ProcessUpstream_other p params in_ out spec Hspec) in *
             by (rewrite Htype; intros g; discriminate);
           specialize (IH p m Hm);
           destruct (Pass.runHooks p params calls) as [q outputs] eqn:Hrun;
           simpl in Hret, IH |- *; rewrite (IH Hret);
           destruct (m !! ref); reflexivity.
    + unfold ProcessUpstream in Hret. rewrite Hspec in Hret. discriminate.
  - cbn [Pass.runHooks Recorded.lastGcloud Recorded.gcloudFor] in *.
    pose proof (ProcessRoute_keeps_recorded p params in_ out) as Hkeep.
    destruct (ProcessRoute p params in_ out) as [[q out'] err].
    simpl in Hkeep. rewrite Hm in Hkeep.
    specialize (IH q m Hkeep).
    destruct (Pass.runHooks q params calls) as [q' outputs] eqn:Hrun.
    simpl in Hret, IH |- *. rewrite (IH Hret). destruct (m !! ref); reflexivity.
  - cbn [Pass.runHooks Recorded.lastGcloud Recorded.gcloudFor] in *.
    destruct (HttpFilters p params listener) as [filters err].
    specialize (IH p m Hm).
    destruct (Pass.runHooks p params calls) as [q' outputs] eqn:Hrun.
    simpl in Hret, IH |- *. rewrite (IH Hret). destruct (m !! ref); reflexivity.
Qed.

(** X12. At the end of a pass whose hooks all returned, what the plugin
    has recorded for a reference is the spec of the last gcloud Backend of
    that reference that went through [ProcessUpstream] in this pass, and
    nothing if there was none: two Backends with one reference overwrite
    each other, and nothing of an earlier pass is left. *)
Theorem X12_pass_records_last_gcloud_backend
    (p : plugin) (init : InitParams) (params : Params)
    (calls : list Pass.call) (ref : ResourceRef) :
  forallb Pass.returned (snd (Pass.runPass p init params calls)) = true ->
  recorded (fst (Pass.runPass p init params calls)) ref =
    Recorded.lastGcloud ref calls None.
Proof.
  intros Hret. unfold Pass.runPass in *.
  rewrite (runHooks_lastGcloud params calls ref (fst (Init p init)) ∅ eq_refl
             Hret).
  rewrite lookup_empty. reflexivity.
Qed.

(** The gcloud upstream is processed twice, the second time with an empty
    function list: the empty list is what is recorded. *)
Lemma X12_witness :
  recorded
    (fst (Pass.runPass Samples.recordedPlugin (mkInitParams 0)
            (Samples.paramsWith [])
            [Pass.CallProcessUpstream Samples.gcloudUpstream
               Samples.emptyCluster;
             Pass.CallProcessUpstream Samples.kubeUpstream
               Samples.emptyCluster;
             Pass.CallProcessUpstream (Samples.withFunctions [])
               Samples.emptyCluster]))
    (mkRef "gfuncs" "gloo-system") =
  Some (mkGcloudUpstreamSpec "l" "p" Samples.secretRef []).
Proof.
  apply (X12_pass_records_last_gcloud_backend Samples.recordedPlugin
           (mkInitParams 0) (Samples.paramsWith [])
           [Pass.CallProcessUpstream Samples.gcloudUpstream
              Samples.emptyCluster;
            Pass.CallProcessUpstream Samples.kubeUpstream
              Samples.emptyCluster;
            Pass.CallProcessUpstream (Samples.withFunctions [])
              Samples.emptyCluster]
           (mkRef "gfuncs" "gloo-system")).
  reflexivity.
Defined.

(** * Further properties of the discovery *)

(** What [DetectFunctionsOnce] does once the secret passed its checks. *)
Lemma DetectFunctionsOnce_validated (f : GcloudGfuncFunctionDiscovery)
    (api : GoogleAPI) (secrets : list Secret) (spec : UpstreamSpec)
    (g : gcloud_UpstreamSpec) (secret : Secret) (gs : GcloudSecret) :
  up_UpstreamSpec (upstream f) = Some spec ->
  UpstreamType_of spec = Some (UpstreamSpec_Gcloud g) ->
  Find secrets (ref_Namespace (SecretRef g)) (ref_Name (SecretRef g)) =
    inl secret ->
  Kind secret = Some (Secret_Gcloud gs) ->
  AccessKey gs = "" \/ utf8.Valid (AccessKey gs) = true ->
  JsonKey gs = "" \/ utf8.Valid (JsonKey gs) = true ->
  JWTConfigFromJSON api (JsonKey gs) = None ->
  cloudfunctions_New api = None ->
  DetectFunctionsOnce f api secrets =
    match Functions_List api
            ("projects/" +:+ ProjectId g +:+ "/locations/" +:+ "-") with
    | (_, Some err) =>
      Returns (inr (Wrapf err "unable to get list of GCF functions" []))
    | (pages, None) =>
      match convertGfuncsToFunctionSpec
              (List.filter supported (concat (map Functions pages))) with
      | Panics msg => Panics msg
      | Returns newfunctions => Returns (inl newfunctions)
      end
    end.
Proof.
  intros Hspec Htype Hfind Hkind Ha Hj Hjwt Hnew.
  unfold DetectFunctionsOnce. rewrite Hspec, Htype, Hfind, Hkind.
  assert (negb (String.eqb (AccessKey gs) "")
          && negb (utf8.Valid (AccessKey gs)) = false) as ->.
  { destruct Ha as [->| ->]; [reflexivity | apply andb_false_r]. }
  assert (negb (String.eqb (JsonKey gs) "")
          && negb (utf8.Valid (JsonKey gs)) = false) as ->.
  { destruct Hj as [->| ->]; [reflexivity | apply andb_false_r]. }
  unfold newGoogleClient. rewrite Hjwt, Hnew. cbv zeta.
  destruct (Functions_List api _) as [pages [err|]];
    rewrite Pages_collect; reflexivity.
Qed.

(** X13. For a Backend of another provider the discovery is not
    functional, and an iteration started nevertheless fails with "not a
    gfunc upstream spec" whatever the provider and the secrets are, without
    calling the mutation callback: the storage is left as it was. *)
Theorem X13_discovery_of_other_provider
    {St : Type} (factory : GcloudGfuncFunctionDiscoveryFactory)
    (u : Upstream) (spec : UpstreamSpec) (api : GoogleAPI)
    (secrets : list Secret)
    (updatecb : UpstreamMutator -> St -> St * option error) (st : St) :
  up_UpstreamSpec u = Some spec ->
  (forall g, UpstreamType_of spec <> Some (UpstreamSpec_Gcloud g)) ->
  IsFunctional (NewFunctionDiscovery factory u) = Returns false /\
  DetectFunctionsOnce (NewFunctionDiscovery factory u) api secrets =
    Returns (inr (Errorf "not a gfunc upstream spec" [])) /\
  detectAndUpdate (NewFunctionDiscovery factory u) api secrets updatecb st =
    Returns (st, Some (Errorf "not a gfunc upstream spec" [])).
Proof.
  intros Hspec Hother.
  unfold detectAndUpdate, DetectFunctionsOnce, IsFunctional,
    NewFunctionDiscovery. simpl. rewrite Hspec.
  destruct (UpstreamType_of spec) as [[k|g|other]|] eqn:E;
    try (repeat split; reflexivity).
  exfalso. exact (Hother g eq_refl).
Qed.

(** The upstream of the test helper, with a mutation callback that would
    delete the Backend if it were called. *)
Lemma X13_witness :
  IsFunctional
    (NewFunctionDiscovery (mkFactory 5)
       (UpstreamsTest.getUpstream "us" "ns" "svc" "ns" 80)) = Returns false /\
  DetectFunctionsOnce
    (NewFunctionDiscovery (mkFactory 5)
       (UpstreamsTest.getUpstream "us" "ns" "svc" "ns" 80))
    (Samples.providerListing []) [Samples.goodSecret] =
    Returns (inr (Errorf "not a gfunc upstream spec" [])) /\
  detectAndUpdate
    (NewFunctionDiscovery (mkFactory 5)
       (UpstreamsTest.getUpstream "us" "ns" "svc" "ns" 80))
    (Samples.providerListing []) [Samples.goodSecret]
    (fun _ (_ : option Upstream) => (None, None))
    (Some Samples.kubeUpstream) =
    Returns (Some Samples.kubeUpstream,
             Some (Errorf "not a gfunc upstream spec" [])).
Proof.
  apply (X13_discovery_of_other_provider (mkFactory 5)
           (UpstreamsTest.getUpstream "us" "ns" "svc" "ns" 80)
           (mkUpstreamSpec
              (Some (UpstreamSpec_Kube (mkKubeUpstreamSpec "svc" "ns" 80))))).
  - reflexivity.
  - intros g. discriminate.
Defined.

(** X14. When the listing of the provider ends in an error, the functions
    of the pages received before it are dropped: [DetectFunctionsOnce]
    returns only the wrapped error, and the iteration ends with that error
    without calling the mutation callback. *)
Theorem X14_failed_listing_writes_nothing
    {St : Type} (f : GcloudGfuncFunctionDiscovery) (api : GoogleAPI)
    (secrets : list Secret) (spec : UpstreamSpec) (g : gcloud_UpstreamSpec)
    (secret : Secret) (gs : GcloudSecret)
    (pages : list ListFunctionsResponse) (err : error)
    (updatecb : UpstreamMutator -> St -> St * option error) (st : St) :
  up_UpstreamSpec (upstream f) = Some spec ->
  UpstreamType_of spec = Some (UpstreamSpec_Gcloud g) ->
  Find secrets (ref_Namespace (SecretRef g)) (ref_Name (SecretRef g)) =
    inl secret ->
  Kind secret = Some (Secret_Gcloud gs) ->
  AccessKey gs = "" \/ utf8.Valid (AccessKey gs) = true ->
  JsonKey gs = "" \/ utf8.Valid (JsonKey gs) = true ->
  JWTConfigFromJSON api (JsonKey gs) = None ->
  cloudfunctions_New api = None ->
  Functions_List api
    ("projects/" +:+ ProjectId g +:+ "/locations/" +:+ "-") =
    (pages, Some err) ->
  DetectFunctionsOnce f api secrets =
    Returns (inr (Wrapf err "unable to get list of GCF functions" [])) /\
  detectAndUpdate f api secrets updatecb st =
    Returns (st, Some (Wrapf err "unable to get list of GCF functions" [])).
Proof.
  intros Hspec Htype Hfind Hkind Ha Hj Hjwt Hnew Hlist.
  pose proof (DetectFunctionsOnce_validated f api secrets spec g secret gs
                Hspec Htype Hfind Hkind Ha Hj Hjwt Hnew) as H.
  rewrite Hlist in H. unfold detectAndUpdate. rewrite H.
  split; reflexivity.
Qed.

Lemma X14_witness :
  DetectFunctionsOnce Samples.discovery
    (mkGoogleAPI (fun _ => None) None
       (fun _ => ([mkListFunctionsResponse [Samples.functionA]],
                  Some Samples.providerError)))
    [Samples.goodSecret] =
    Returns (inr (Wrapf Samples.providerError
                    "unable to get list of GCF functions" [])) /\
  detectAndUpdate Samples.discovery
    (mkGoogleAPI (fun _ => None) None
       (fun _ => ([mkListFunctionsResponse [Samples.functionA]],
                  Some Samples.providerError)))
    [Samples.goodSecret] storeUpdate (Some Samples.gcloudUpstream) =
    Returns (Some Samples.gcloudUpstream,
             Some (Wrapf Samples.providerError
                     "unable to get list of GCF functions" [])).
Proof.
  apply (X14_failed_listing_writes_nothing Samples.discovery
           (mkGoogleAPI (fun _ => None) None
              (fun _ => ([mkListFunctionsResponse [Samples.functionA]],
                         Some Samples.providerError)))
           [Samples.goodSecret]
           (mkUpstreamSpec (Some (UpstreamSpec_Gcloud Samples.gcloudSpec)))
           Samples.gcloudSpec Samples.goodSecret
           (mkGcloudSecret "key-id" "{}")
           [mkListFunctionsResponse [Samples.functionA]]
           Samples.providerError).
  - reflexivity.
  - reflexivity.
  - reflexivity.
  - reflexivity.
  - right. vm_compute. reflexivity.
  - right. vm_compute. reflexivity.
  - reflexivity.
  - reflexivity.
  - reflexivity.
Defined.

(** ** The mutator *)

(** X15. The mutator of the discovery changes a live Backend only when it
    is a gcloud Backend, and then only its function list: metadata,
    region, project and secret reference stay. On a deleted Backend, one
    without spec or variant, or one of another provider it returns an
    error and leaves the Backend as it is. A later write replaces an
    earlier one. *)
Theorem X15_setFunctions_replaces_only_the_functions
    (newfunctions : list GfuncFunctionSpec) (out : option Upstream) :
  match setFunctions newfunctions out with
  | (out', None) =>
    exists u g,
      out = Some u /\
      up_UpstreamSpec u =
        Some (mkUpstreamSpec (Some (UpstreamSpec_Gcloud g))) /\
      out' =
        Some {| up_Metadata := up_Metadata u;
                up_UpstreamSpec :=
                  Some (mkUpstreamSpec
                    (Some (UpstreamSpec_Gcloud
                       {| Region := Region g;
                          ProjectId := ProjectId g;
                          SecretRef := SecretRef g;
                          GfuncFunctions := newfunctions |}))) |}
  | (out', Some _) =>
    out' = out /\
    forall u g,
      out = Some u ->
      up_UpstreamSpec u <>
        Some (mkUpstreamSpec (Some (UpstreamSpec_Gcloud g)))
  end /\
  forall earlier,
    setFunctions newfunctions (fst (setFunctions earlier out)) =
    setFunctions newfunctions out.
Proof.
  unfold setFunctions.
  destruct out as [[meta [[[[k|g|other]|]]|]]|]; simpl;
    (split; [|intros earlier; reflexivity]);
    try (split; [reflexivity|]; intros u g' H; injection H as <-; simpl;
         discriminate);
    try (split; [reflexivity|]; intros u g' H; discriminate).
  exists (mkUpstream meta (Some (mkUpstreamSpec (Some (UpstreamSpec_Gcloud g))))),
         g.
  repeat split.
Qed.

(** ** A successful iteration *)

(** X16. When [DetectFunctionsOnce] returns a list and the live Backend in
    the storage is a gcloud Backend, the iteration ends without error and
    the stored Backend differs from the live one only in its function
    list, which holds exactly the detected functions (a permutation of
    them) with no logical name less than its predecessor's. When the live
    Backend has been deleted or is of another provider, the iteration
    fails with the wrapped error of the mutator and the storage is as
    before. *)
Theorem X16_iteration_writes_sorted_functions
    (f : GcloudGfuncFunctionDiscovery) (api : GoogleAPI)
    (secrets : list Secret) (newfunctions : list GfuncFunctionSpec)
    (live : option Upstream) :
  DetectFunctionsOnce f api secrets = Returns (inl newfunctions) ->
  match detectAndUpdate f api secrets storeUpdate live with
  | Returns (stored, None) =>
    exists u g written,
      live = Some u /\
      up_UpstreamSpec u =
        Some (mkUpstreamSpec (Some (UpstreamSpec_Gcloud g))) /\
      stored =
        Some {| up_Metadata := up_Metadata u;
                up_UpstreamSpec :=
                  Some (mkUpstreamSpec
                    (Some (UpstreamSpec_Gcloud
                       {| Region := Region g;
                          ProjectId := ProjectId g;
                          SecretRef := SecretRef g;
                          GfuncFunctions := written |}))) |} /\
      Permutation written newfunctions /\
      Sorted (fun a b => String.ltb (LogicalName b) (LogicalName a) = false)
             written
  | Returns (stored, Some err) =>
    stored = live /\
    (exists cause, err = Wrapf cause "unable to update upstream" []) /\
    forall u g,
      live = Some u ->
      up_UpstreamSpec u <>
        Some (mkUpstreamSpec (Some (UpstreamSpec_Gcloud g)))
  | Panics _ => False
  end.
Proof.
  intros Hdetect. unfold detectAndUpdate, storeUpdate. rewrite Hdetect.
  destruct (sorted_by_LogicalName newfunctions) as [Hsorted Hperm].
  unfold setFunctions.
  destruct live as [[meta [[[[k|g|other]|]]|]]|]; simpl;
    try (split; [reflexivity|]; split; [eexists; reflexivity|];
         intros u g' H; injection H as <-; simpl; discriminate);
    try (split; [reflexivity|]; split; [eexists; reflexivity|];
         intros u g' H; discriminate).
  exists (mkUpstream meta (Some (mkUpstreamSpec (Some (UpstreamSpec_Gcloud g))))),
         g, (sort.Slice newfunctions lessLogicalName).
  repeat split; assumption.
Qed.

Lemma X16_witness :
  match detectAndUpdate Samples.discovery
          (Samples.providerListing
             [mkListFunctionsResponse [Samples.functionB; Samples.functionA]])
          [Samples.goodSecret] storeUpdate None with
  | Returns (stored, Some err) =>
    stored = None /\
    (exists cause, err = Wrapf cause "unable to update upstream" []) /\
    forall u g,
      None = Some u ->
      up_UpstreamSpec u <>
        Some (mkUpstreamSpec (Some (UpstreamSpec_Gcloud g)))
  | _ => False
  end.
Proof.
  exact (X16_iteration_writes_sorted_functions Samples.discovery
           (Samples.providerListing
              [mkListFunctionsResponse [Samples.functionB; Samples.functionA]])
           [Samples.goodSecret]
           [mkGfuncFunctionSpec "" "b" "https://l-p.cloudfunctions.net/b";
            mkGfuncFunctionSpec "" "a" "https://l-p.cloudfunctions.net/a"]
           None eq_refl).
Defined.

(** * The discovery and the plugin together *)

(** X17. Routes to discovered functions: when the function list recorded
    for a Backend is the list an iteration of the discovery writes, a route
    that names a non-empty logical name fails with "unknown function",
    whatever the provider listed, because the discovery leaves every
    logical name empty; a route that names the empty logical name gets the
    first function the provider listed among those it kept. *)
Theorem X17_routes_to_discovered_functions
    (f : GcloudGfuncFunctionDiscovery) (api : GoogleAPI)
    (secrets : list Secret) (newfunctions : list GfuncFunctionSpec)
    (p : plugin) (params : Params) (in_ : Route) (out : envoy_Route)
    (upstream : ResourceRef) (gds : gcloud_DestinationSpec)
    (gfuncSpec : gcloud_UpstreamSpec) :
  DetectFunctionsOnce f api secrets = Returns (inl newfunctions) ->
  GfuncFunctions gfuncSpec = sort.Slice newfunctions lessLogicalName ->
  recorded p upstream = Some gfuncSpec ->
  GetUpstream (route_Destination in_) = Some upstream ->
  dest_DestinationSpec (route_Destination in_) =
    Some (mkDestinationSpec (Some (DestinationSpec_Gcloud gds))) ->
  (dest_LogicalName gds <> "" ->
   ProcessRoute p params in_ out =
     (p, out,
      Some (Errorf "unknown function %v" [ArgString (dest_LogicalName gds)])))
  /\
  (dest_LogicalName gds = "" ->
   forall first rest, newfunctions = first :: rest ->
   exists p' out',
     ProcessRoute p params in_ out = (p', out', None) /\
     PerFilterConfig out' !! filterName =
       Some (Msg_GfuncPerRoute
               {| pr_Name := GfuncFunctionName first; pr_Url := Url first |})).
Proof.
  intros Hdetect Hfs Hrec Hup Hds.
  rewrite (discovered_functions_not_reordered f api secrets newfunctions
             Hdetect) in Hfs.
  pose proof (DetectFunctionsOnce_LogicalName f api secrets newfunctions
                Hdetect) as Hempty.
  pose proof (ProcessRoute_gcloud_recorded p params in_ out upstream gds
                gfuncSpec Hup Hds Hrec) as H.
  rewrite Hfs in H. split.
  - intros Hname.
    rewrite getFunction_unknown in H; [exact H|].
    apply List.Forall_forall. intros s Hs.
    rewrite List.Forall_forall in Hempty. rewrite (Hempty s Hs). congruence.
  - intros Hname first rest ->.
    inversion Hempty as [|? ? Hfirst _]; subst.
    pose proof (getFunction_first (dest_LogicalName gds) [] rest first
                  (List.Forall_nil _)) as Hget.
    change ([] ++ first :: rest)%list with (first :: rest) in Hget.
    rewrite Hget in H by congruence.
    destruct H as (p' & out' & Hrun & _ & Hcfg).
    exists p', out'. split; assumption.
Qed.

(** The provider lists b and a; a route to the logical name "a" fails. *)
Lemma X17_witness :
  ProcessRoute
    (mkPlugin
       (Some {[ mkRef "gfuncs" "gloo-system" :=
                  mkGcloudUpstreamSpec "l" "p" Samples.secretRef
                    (sort.Slice
                       [mkGfuncFunctionSpec "" "b"
                          "https://l-p.cloudfunctions.net/b";
                        mkGfuncFunctionSpec "" "a"
                          "https://l-p.cloudfunctions.net/a"]
                       lessLogicalName) ]})
       (Some 0%nat) false)
    (Samples.paramsWith [Samples.goodSecret])
    (Samples.routeTo "a") Samples.emptyRoute =
  (mkPlugin
     (Some {[ mkRef "gfuncs" "gloo-system" :=
                mkGcloudUpstreamSpec "l" "p" Samples.secretRef
                  (sort.Slice
                     [mkGfuncFunctionSpec "" "b"
                        "https://l-p.cloudfunctions.net/b";
                      mkGfuncFunctionSpec "" "a"
                        "https://l-p.cloudfunctions.net/a"]
                     lessLogicalName) ]})
     (Some 0%nat) false,
   Samples.emptyRoute,
   Some (Errorf "unknown function %v" [ArgString "a"])).
Proof.
  refine (proj1
            (X17_routes_to_discovered_functions Samples.discovery
               (Samples.providerListing
                  [mkListFunctionsResponse
                     [Samples.functionB; Samples.functionA]])
               [Samples.goodSecret]
               [mkGfuncFunctionSpec "" "b" "https://l-p.cloudfunctions.net/b";
                mkGfuncFunctionSpec "" "a" "https://l-p.cloudfunctions.net/a"]
               _ (Samples.paramsWith [Samples.goodSecret])
               (Samples.routeTo "a") Samples.emptyRoute
               (mkRef "gfuncs" "gloo-system")
               (mkGcloudDestinationSpec "a" false)
               (mkGcloudUpstreamSpec "l" "p" Samples.secretRef
                  (sort.Slice
                     [mkGfuncFunctionSpec "" "b"
                        "https://l-p.cloudfunctions.net/b";
                      mkGfuncFunctionSpec "" "a"
                        "https://l-p.cloudfunctions.net/a"]
                     lessLogicalName))
               _ _ _ _ _) _).
  - reflexivity.
  - reflexivity.
  - reflexivity.
  - reflexivity.
  - reflexivity.
  - discriminate.
Defined.

(** X18. The two checks of a secret disagree on empty fields: for a gcloud
    secret whose access key is empty and whose JSON key is non-empty valid
    UTF-8, [ProcessUpstream] fails with the error of access_key, while
    [DetectFunctionsOnce] accepts the secret and, when the provider
    answers, returns the functions it lists. *)
Theorem X18_empty_access_key_plugin_rejects_discovery_accepts
    (p : plugin) (params : Params) (in_ : Upstream) (out : Cluster)
    (spec : UpstreamSpec) (g : gcloud_UpstreamSpec)
    (m : gmap ResourceRef gcloud_UpstreamSpec)
    (secret : Secret) (gs : GcloudSecret)
    (factory : GcloudGfuncFunctionDiscoveryFactory) (api : GoogleAPI)
    (pages : list ListFunctionsResponse) :
  up_UpstreamSpec in_ = Some spec ->
  UpstreamType_of spec = Some (UpstreamSpec_Gcloud g) ->
  recordedUpstreams p = Some m ->
  Find (Secrets (Snapshot params))
       (ref_Namespace (SecretRef g)) (ref_Name (SecretRef g)) = inl secret ->
  Kind secret = Some (Secret_Gcloud gs) ->
  AccessKey gs = "" ->
  JsonKey gs <> "" -> utf8.Valid (JsonKey gs) = true ->
  JWTConfigFromJSON api (JsonKey gs) = None ->
  cloudfunctions_New api = None ->
  Functions_List api
    ("projects/" +:+ ProjectId g +:+ "/locations/" +:+ "-") = (pages, None) ->
  (exists p' out',
      ProcessUpstream p params in_ out =
        Returns (p', out',
                 Some (MultiError
                         [Errorf "access_key is not a valid string" []]))) /\
  (exists newfunctions,
      DetectFunctionsOnce (NewFunctionDiscovery factory in_) api
        (Secrets (Snapshot params)) = Returns (inl newfunctions) /\
      length newfunctions =
        length (List.filter supported (concat (map Functions pages)))).
Proof.
  intros Hspec Htype Hmap Hfind Hkind Ha Hj Hv Hjwt Hnew Hlist. split.
  - unfold ProcessUpstream. rewrite Hspec, Htype, Hmap. cbn [Strings].
    rewrite Hfind, Hkind. unfold secretErrs. rewrite Ha, Hv.
    destruct (String.eqb_spec (JsonKey gs) "") as [E|_]; [contradiction|].
    eexists _, _. reflexivity.
  - rewrite (DetectFunctionsOnce_validated (NewFunctionDiscovery factory in_)
               api _ spec g secret gs Hspec Htype Hfind Hkind
               (or_introl Ha) (or_intror Hv) Hjwt Hnew), Hlist.
    destruct (convert_supported _
                (filter_all_supported (concat (map Functions pages))))
      as (newfunctions & -> & Hall).
    exists newfunctions. split; [reflexivity|].
    symmetry. eapply Forall2_length. exact Hall.
Qed.

Lemma X18_witness :
  (exists p' out',
      ProcessUpstream Samples.initialised
          (Samples.paramsWith [Samples2.noAccessKey])
          Samples.gcloudUpstream Samples.emptyCluster =
        Returns (p', out',
                 Some (MultiError
                         [Errorf "access_key is not a valid string" []]))) /\
  (exists newfunctions,
      DetectFunctionsOnce
        (NewFunctionDiscovery (mkFactory 5) Samples.gcloudUpstream)
        (Samples.providerListing
           [mkListFunctionsResponse [Samples.functionB; Samples.functionA]])
        (Secrets (Snapshot (Samples.paramsWith [Samples2.noAccessKey]))) =
        Returns (inl newfunctions) /\
      length newfunctions =
        length (List.filter supported
                  (concat (map Functions
                     [mkListFunctionsResponse
                        [Samples.functionB; Samples.functionA]])))).
Proof.
  apply (X18_empty_access_key_plugin_rejects_discovery_accepts
           Samples.initialised (Samples.paramsWith [Samples2.noAccessKey])
           Samples.gcloudUpstream Samples.emptyCluster
           (mkUpstreamSpec (Some (UpstreamSpec_Gcloud Samples.gcloudSpec)))
           Samples.gcloudSpec ∅ Samples2.noAccessKey
           (mkGcloudSecret "" "{}") (mkFactory 5)
           (Samples.providerListing
              [mkListFunctionsResponse [Samples.functionB; Samples.functionA]])
           [mkListFunctionsResponse [Samples.functionB; Samples.functionA]]).
  - reflexivity.
  - reflexivity.
  - reflexivity.
  - reflexivity.
  - reflexivity.
  - reflexivity.
  - discriminate.
  - vm_compute. reflexivity.
  - reflexivity.
  - reflexivity.
  - reflexivity.
Defined.

(** * The command that creates a gcloud secret *)

Import Cli.

(** The interactive step adds nothing but prompts to what was done. *)
Lemma interactive_only_asks (env : Env) (meta : Metadata)
    (input : GcloudSecretInput) (log : list event) :
  exists asked,
    fst (fst (GcloudSecretArgsInteractive env meta input log)) =
      (log ++ asked)%list /\
    forallb isAsked asked = true.
Proof.
  unfold GcloudSecretArgsInteractive.
  destruct (GetStringInput env gcloudPromptAccessKey (in_AccessKey input))
    as [accessKey [err|]].
  - exists [Asked gcloudPromptAccessKey]. split; reflexivity.
  - simpl.
    destruct (GetStringInput env gcloudPromptJsonKey (in_JsonKey input))
      as [jsonKey [err|]];
      exists [Asked gcloudPromptAccessKey; Asked gcloudPromptJsonKey];
      (split; [simpl; rewrite <- app_assoc; reflexivity | reflexivity]).
Qed.

Lemma asked_is_no_write (asked : list event) :
  forallb isAsked asked = true ->
  existsb isWrite asked = false /\ existsb isPrintf asked = false.
Proof.
  induction asked as [|[msg|s|s|fmt args] asked IH]; simpl;
    try discriminate; [split; reflexivity | exact IH].
Qed.

(** X19. A dry run never touches the storage: when the parsed options ask
    for a dry run, the command, interactive or not and whatever fails,
    never calls [secretClient.Write] and never prints the message that a
    secret was created. *)
Theorem X19_dry_run_never_writes
    (env : Env) (opts : Options) (accessKeyFlag jsonKeyFlag : option string)
    (args : list string) :
  (forall parsed,
      MetadataArgsParse env (bindFlags opts accessKeyFlag jsonKeyFlag) args =
        inl parsed -> DryRun parsed = true) ->
  existsb isWrite
    (snd (fst (gcloudCmd env opts accessKeyFlag jsonKeyFlag args))) = false /\
  existsb isPrintf
    (snd (fst (gcloudCmd env opts accessKeyFlag jsonKeyFlag args))) = false.
Proof.
  intros Hdry. unfold gcloudCmd, RunE.
  destruct (MetadataArgsParse env _ args) as [parsed|err];
    [|split; reflexivity].
  specialize (Hdry parsed eq_refl).
  destruct (Interactive parsed).
  - destruct (interactive_only_asks env (opts_Metadata parsed)
                (InputGcloudSecret parsed) []) as (asked & Hlog & Hasked).
    destruct (GcloudSecretArgsInteractive env _ _ [])
      as [[log input] [err|]]; simpl in Hlog; subst log; simpl.
    + exact (asked_is_no_write asked Hasked).
    + unfold createGcloudSecret. rewrite Hdry. simpl.
      rewrite !existsb_app. simpl.
      destruct (asked_is_no_write asked Hasked) as [-> ->].
      split; reflexivity.
  - simpl. unfold createGcloudSecret. rewrite Hdry. split; reflexivity.
Qed.

Lemma X19_witness :
  existsb isWrite
    (snd (fst (gcloudCmd Samples2.agreeable (Samples2.options true true)
                 (Some "key-id") None []))) = false /\
  existsb isPrintf
    (snd (fst (gcloudCmd Samples2.agreeable (Samples2.options true true)
                 (Some "key-id") None []))) = false.
Proof.
  apply (X19_dry_run_never_writes Samples2.agreeable
           (Samples2.options true true) (Some "key-id") None []).
  intros parsed H. injection H as <-. reflexivity.
Defined.

(** X20. Without dry run the command returns no error exactly when it
    printed the message that the secret was created, and it prints that
    message only right after a call of [secretClient.Write] that
    succeeded, for the secret made of the parsed metadata and the final
    input; the message names the secret's name and namespace. *)
Theorem X20_created_message_iff_written
    (env : Env) (opts : Options) (accessKeyFlag jsonKeyFlag : option string)
    (args : list string) (parsed : Options) :
  MetadataArgsParse env (bindFlags opts accessKeyFlag jsonKeyFlag) args =
    inl parsed ->
  DryRun parsed = false ->
  let '(final, log, err) :=
    gcloudCmd env opts accessKeyFlag jsonKeyFlag args in
  (err = None <-> existsb isPrintf log = true) /\
  (err = None ->
   let secret :=
     {| sec_Metadata := opts_Metadata parsed;
        Kind := Some (Secret_Gcloud
                        {| AccessKey := in_AccessKey (InputGcloudSecret final);
                           JsonKey := in_JsonKey (InputGcloudSecret final) |})
     |} in
   secretClient_Write env secret = None /\
   exists before,
     log =
       (before ++
        [WriteCalled secret;
         Printf ("Created Gcloud secret [%v] in namespace [%v]" +:+ newline)
           [ArgString (Name (opts_Metadata parsed));
            ArgString (Namespace (opts_Metadata parsed))]])%list).
Proof.
  intros Hparse Hdry. unfold gcloudCmd, RunE. rewrite Hparse.
  assert (forall input log0,
            existsb isPrintf log0 = false ->
            let '(log, err) :=
              createGcloudSecret env (opts_Metadata parsed) input false log0 in
            (err = None <-> existsb isPrintf log = true) /\
            (err = None ->
             let secret :=
               {| sec_Metadata := opts_Metadata parsed;
                  Kind := Some (Secret_Gcloud
                                  {| AccessKey := in_AccessKey input;
                                     JsonKey := in_JsonKey input |}) |} in
             secretClient_Write env secret = None /\
             exists before,
               log =
                 (before ++
                  [WriteCalled secret;
                   Printf ("Created Gcloud secret [%v] in namespace [%v]"
                           +:+ newline)
                     [ArgString (Name (opts_Metadata parsed));
                      ArgString (Namespace (opts_Metadata parsed))]])%list))
    as Hcreate.
  { intros input log0 Hlog0. unfold createGcloudSecret.
    destruct (secretClient_Write env _) as [e|] eqn:Hw.
    - rewrite existsb_app, Hlog0. simpl.
      split; [split; discriminate | discriminate].
    - rewrite !existsb_app. simpl. rewrite !orb_true_r.
      split; [split; reflexivity|]. intros _. split; [reflexivity|].
      exists log0. rewrite <- app_assoc. reflexivity. }
  destruct (Interactive parsed).
  - destruct (interactive_only_asks env (opts_Metadata parsed)
                (InputGcloudSecret parsed) []) as (asked & Hlog & Hasked).
    destruct (asked_is_no_write asked Hasked) as [_ Hnp].
    destruct (GcloudSecretArgsInteractive env _ _ [])
      as [[log input] [err|]]; simpl in Hlog; subst log; simpl.
    + rewrite Hnp. split; [split; discriminate | discriminate].
    + rewrite Hdry. specialize (Hcreate input asked Hnp).
      destruct (createGcloudSecret env _ input false asked) as [log err].
      exact Hcreate.
  - simpl. rewrite Hdry.
    specialize (Hcreate (InputGcloudSecret parsed) [] eq_refl).
    destruct (createGcloudSecret env _ _ false []) as [log err].
    exact Hcreate.
Qed.

(** The storage refuses the write: an error, and no message. *)
Lemma X20_witness :
  (Some (ExternalError "forbidden") = None <->
   existsb isPrintf
     [WriteCalled
        (mkSecret Samples2.meta
           (Some (Secret_Gcloud (mkGcloudSecret "key-id" "{}"))))] = true).
Proof.
  exact (proj1 (X20_created_message_iff_written Samples2.readOnly
                  (Samples2.options false false) (Some "key-id") (Some "{}")
                  []
                  (mkOptions false Samples2.meta false
                     (mkGcloudSecretInput "key-id" "{}"))
                  eq_refl eq_refl)).
Defined.

(** X21. Without the interactive mode the command never prompts, and the
    secret it prints or writes is made of the parsed metadata and the
    parsed input, which holds the values of the flags (the empty string
    for a flag that is not given) unless the argument parser changed
    them. *)
Theorem X21_non_interactive_uses_the_flags
    (env : Env) (opts : Options) (accessKeyFlag jsonKeyFlag : option string)
    (args : list string) (parsed : Options) :
  MetadataArgsParse env (bindFlags opts accessKeyFlag jsonKeyFlag) args =
    inl parsed ->
  Interactive parsed = false ->
  in_AccessKey (InputGcloudSecret (bindFlags opts accessKeyFlag jsonKeyFlag)) =
    match accessKeyFlag with Some v => v | None => "" end /\
  in_JsonKey (InputGcloudSecret (bindFlags opts accessKeyFlag jsonKeyFlag)) =
    match jsonKeyFlag with Some v => v | None => "" end /\
  existsb isAsked
    (snd (fst (gcloudCmd env opts accessKeyFlag jsonKeyFlag args))) = false /\
  forall secret,
    In (WriteCalled secret)
       (snd (fst (gcloudCmd env opts accessKeyFlag jsonKeyFlag args))) \/
    In (PrintedKubeSecret secret)
       (snd (fst (gcloudCmd env opts accessKeyFlag jsonKeyFlag args))) ->
    secret =
      {| sec_Metadata := opts_Metadata parsed;
         Kind := Some (Secret_Gcloud
                         {| AccessKey := in_AccessKey (InputGcloudSecret parsed);
                            JsonKey := in_JsonKey (InputGcloudSecret parsed) |})
      |}.
Proof.
  intros Hparse Hni. split; [reflexivity|]. split; [reflexivity|].
  unfold gcloudCmd, RunE. rewrite Hparse, Hni. simpl.
  unfold createGcloudSecret.
  destruct (DryRun parsed); simpl.
  - split; [reflexivity|].
    intros secret [[H|[]]|[H|[]]]; [discriminate | congruence].
  - destruct (secretClient_Write env _); simpl; (split; [reflexivity|]).
    + intros secret [[H|[]]|[H|[]]]; [congruence | discriminate].
    + intros secret [[H|[H|[]]]|[H|[H|[]]]];
        try discriminate; congruence.
Qed.

(** No flag is given: both keys of the input are empty and nothing is
    asked. *)
Lemma X21_witness :
  in_AccessKey
    (InputGcloudSecret (bindFlags (Samples2.options false false) None None)) =
    "" /\
  in_JsonKey
    (InputGcloudSecret (bindFlags (Samples2.options false false) None None)) =
    "" /\
  existsb isAsked
    (snd (fst (gcloudCmd Samples2.agreeable (Samples2.options false false)
                 None None []))) = false.
Proof.
  pose proof (X21_non_interactive_uses_the_flags Samples2.agreeable
                (Samples2.options false false) None None []
                (mkOptions false Samples2.meta false
                   (mkGcloudSecretInput "" ""))
                eq_refl eq_refl) as (Ha & Hj & Hasked & _).
  exact (conj Ha (conj Hj Hasked)).
Defined.

(** X22. In the interactive mode the command asks for the access key
    first and for the JSON key only when the first prompt succeeded; when
    a prompt fails the command returns its error and neither prints nor
    writes a secret. *)
Theorem X22_failed_prompt_creates_nothing
    (env : Env) (opts : Options) (accessKeyFlag jsonKeyFlag : option string)
    (args : list string) (parsed : Options) :
  MetadataArgsParse env (bindFlags opts accessKeyFlag jsonKeyFlag) args =
    inl parsed ->
  Interactive parsed = true ->
  let '(final, log, err) :=
    gcloudCmd env opts accessKeyFlag jsonKeyFlag args in
  match GetStringInput env gcloudPromptAccessKey
          (in_AccessKey (InputGcloudSecret parsed)) with
  | (_, Some e) => log = [Asked gcloudPromptAccessKey] /\ err = Some e
  | (_, None) =>
    match GetStringInput env gcloudPromptJsonKey
            (in_JsonKey (InputGcloudSecret parsed)) with
    | (_, Some e) =>
      log = [Asked gcloudPromptAccessKey; Asked gcloudPromptJsonKey] /\
      err = Some e
    | (_, None) =>
      exists created,
        log = ([Asked gcloudPromptAccessKey; Asked gcloudPromptJsonKey]
               ++ created)%list /\
        forallb (fun e => negb (isAsked e)) created = true
    end
  end.
Proof.
  intros Hparse Hi. unfold gcloudCmd, RunE. rewrite Hparse, Hi.
  unfold GcloudSecretArgsInteractive.
  destruct (GetStringInput env gcloudPromptAccessKey _) as [a [e|]]; simpl.
  - split; reflexivity.
  - destruct (GetStringInput env gcloudPromptJsonKey _) as [j [e|]]; simpl.
    + split; reflexivity.
    + unfold createGcloudSecret. destruct (DryRun parsed); simpl.
      * eexists. split; reflexivity.
      * destruct (secretClient_Write env _); simpl;
          eexists; split; reflexivity.
Qed.

(** The user breaks off at the first prompt. *)
Lemma X22_witness :
  [Asked gcloudPromptAccessKey] = [Asked gcloudPromptAccessKey] /\
  Some (ExternalError "interrupt") = Some (ExternalError "interrupt").
Proof.
  exact (X22_failed_prompt_creates_nothing Samples2.interrupted
           (Samples2.options true false) None None []
           (mkOptions true Samples2.meta false (mkGcloudSecretInput "" ""))
           eq_refl eq_refl).
Defined.

(** ** From the command to the plugin *)

(** X23. The command stores a secret without checking its keys, and the
    plugin checks them later: for the secret [createGcloudSecret] writes
    and a gcloud Backend that refers to it by its metadata,
    [ProcessUpstream] returns no error exactly when both keys of the input
    are non-empty valid UTF-8. With the flag defaults (two empty keys) the
    secret is written and the Backend fails with both errors. *)
Theorem X23_written_secret_is_checked_by_the_plugin
    (env : Env) (meta : Metadata) (input : GcloudSecretInput)
    (log : list event)
    (p : plugin) (m : gmap ResourceRef gcloud_UpstreamSpec)
    (upstreams : list Upstream) (in_ : Upstream) (out : Cluster)
    (spec : UpstreamSpec) (g : gcloud_UpstreamSpec) :
  up_UpstreamSpec in_ = Some spec ->
  UpstreamType_of spec = Some (UpstreamSpec_Gcloud g) ->
  recordedUpstreams p = Some m ->
  SecretRef g = Ref meta ->
  exists secret,
    In (WriteCalled secret)
       (fst (createGcloudSecret env meta input false log)) /\
    ((exists p' out',
         ProcessUpstream p (mkParams (mkSnapshot upstreams [secret])) in_ out =
           Returns (p', out', None))
     <->
     (in_AccessKey input <> "" /\ utf8.Valid (in_AccessKey input) = true) /\
     (in_JsonKey input <> "" /\ utf8.Valid (in_JsonKey input) = true)) /\
    (in_AccessKey input = "" -> in_JsonKey input = "" ->
     exists p' out',
       ProcessUpstream p (mkParams (mkSnapshot upstreams [secret])) in_ out =
         Returns (p', out',
                  Some (MultiError
                          [Errorf "access_key is not a valid string" [];
                           Errorf "json_key is not a valid string" []]))).
Proof.
  intros Hspec Htype Hmap Href.
  exists {| sec_Metadata := meta;
            Kind := Some (Secret_Gcloud {| AccessKey := in_AccessKey input;
                                           JsonKey := in_JsonKey input |}) |}.
  split; [|split].
  - unfold createGcloudSecret.
    destruct (secretClient_Write env _); simpl; apply in_or_app.
    + right. left. reflexivity.
    + left. apply in_or_app. right. left. reflexivity.
  - unfold ProcessUpstream. rewrite Hspec, Htype, Hmap, Href.
    cbn [Strings Find Secrets Snapshot sec_Metadata ref_Namespace ref_Name Ref].
    rewrite decide_True by reflexivity. cbn [Kind AccessKey JsonKey].
    rewrite <- secretErrs_None_iff.
    destruct (secretErrs _ _) as [errs|]; simpl.
    + split; [intros (p' & out' & H); discriminate | discriminate].
    + split; [reflexivity | intros _; eexists _, _; reflexivity].
  - intros Ha Hj. unfold ProcessUpstream. rewrite Hspec, Htype, Hmap, Href.
    cbn [Strings Find Secrets Snapshot sec_Metadata ref_Namespace ref_Name Ref].
    rewrite decide_True by reflexivity. cbn [Kind AccessKey JsonKey].
    rewrite Ha, Hj. eexists _, _. reflexivity.
Qed.

Lemma X23_witness :
  exists secret,
    In (WriteCalled secret)
       (fst (createGcloudSecret Samples2.agreeable Samples2.meta
               (mkGcloudSecretInput "" "") false [])) /\
    ((exists p' out',
         ProcessUpstream Samples.initialised
           (mkParams (mkSnapshot [] [secret]))
           Samples.gcloudUpstream Samples.emptyCluster =
           Returns (p', out', None))
     <->
     (in_AccessKey (mkGcloudSecretInput "" "") <> "" /\
      utf8.Valid (in_AccessKey (mkGcloudSecretInput "" "")) = true) /\
     (in_JsonKey (mkGcloudSecretInput "" "") <> "" /\
      utf8.Valid (in_JsonKey (mkGcloudSecretInput "" "")) = true)) /\
    (in_AccessKey (mkGcloudSecretInput "" "") = "" ->
     in_JsonKey (mkGcloudSecretInput "" "") = "" ->
     exists p' out',
       ProcessUpstream Samples.initialised
         (mkParams (mkSnapshot [] [secret]))
         Samples.gcloudUpstream Samples.emptyCluster =
         Returns (p', out',
                  Some (MultiError
                          [Errorf "access_key is not a valid string" [];
                           Errorf "json_key is not a valid string" []]))).
Proof.
  apply (X23_written_secret_is_checked_by_the_plugin Samples2.agreeable
           Samples2.meta (mkGcloudSecretInput "" "") [] Samples.initialised ∅
           [] Samples.gcloudUpstream Samples.emptyCluster
           (mkUpstreamSpec (Some (UpstreamSpec_Gcloud Samples.gcloudSpec)))
           Samples.gcloudSpec); reflexivity.
Defined.

(** * The helpers of the upstreams client test *)

Import UpstreamsTest.

Lemma portName_inj (i j : nat) : portName i = portName j -> i = j.
Proof.
  unfold portName. intros H. simpl in H. injection H as H.
  exact (pretty_nat_inj _ _ H).
Qed.

Lemma getService_ports_from (ports : list Z) :
  forall (n : nat) (acc : list corev1_ServicePort),
  fold_left
    (fun (acc : nat * list corev1_ServicePort) port =>
       (S (fst acc),
        (snd acc ++ [{| sp_Name := portName (fst acc); sp_Port := port |}])%list))
    ports (n, acc) =
  (n + length ports,
   (acc ++ imap (fun i port => {| sp_Name := portName (n + i);
                                  sp_Port := port |}) ports)%list).
Proof.
  induction ports as [|port ports IH]; intros n acc; simpl.
  - rewrite app_nil_r. f_equal. lia.
  - rewrite IH. simpl. f_equal; [lia|].
    rewrite <- app_assoc. simpl. rewrite Nat.add_0_r. do 2 f_equal.
    apply imap_ext. intros i x _. simpl. f_equal. f_equal. lia.
Qed.

(** X24. [getService] gives the service one port per element of [ports],
    in order: the i-th port carries the i-th number and the name port-i
    (i in decimal, from 0), so the names of the ports of a service are
    pairwise different. *)
Theorem X24_getService_names_ports_by_index
    (name namespace : string) (ports : list Z) :
  length (svc_Ports (getService name namespace ports)) = length ports /\
  (forall i,
      svc_Ports (getService name namespace ports) !! i =
        (fun port => {| sp_Name := "port-" +:+ pretty i; sp_Port := port |})
          <$> ports !! i) /\
  NoDup (map sp_Name (svc_Ports (getService name namespace ports))).
Proof.
  unfold getService. simpl. rewrite getService_ports_from. simpl.
  split; [apply length_imap|]. split.
  - intros i. rewrite list_lookup_imap. reflexivity.
  - apply NoDup_alt. intros i j x Hi Hj.
    rewrite list_lookup_fmap, list_lookup_imap in Hi, Hj.
    destruct (ports !! i) as [pi|]; [|discriminate].
    destruct (ports !! j) as [pj|]; [|discriminate].
    assert (portName i = portName j) as H.
    { cbv [fmap option_fmap option_map] in Hi, Hj.
      cbn [sp_Name Nat.add] in Hi, Hj. congruence. }
    exact (portName_inj i j H).
Qed.

(** * Panics of an iteration *)


